(** * emotion-detector-js: the client library, embedded and verified

    A shallow embedding of [src/client.ts], [src/errors.ts] and
    [src/types.ts].  The client validates its input, issues one HTTP POST
    through the platform's [fetch], and maps every outcome to a result or
    to one of the five error classes of the library.

    Layout:
    - [JS]      the platform values the code manipulates: strings as
                sequences of UTF-16 code units, numbers and how they
                print, [trim], [split(/\s+/)], [parseInt], [JSON.parse],
                truthiness, conversion to a string;
    - [Errors]  the error classes of [errors.ts];
    - the interfaces of [types.ts], one record each;
    - [Client]  [client.ts]: validation, the request pipeline, the two
                public methods;
    - the vocabulary of the properties and the transports of the
      examples;
    - the lemmas and theorems: strings, validation, the request pipeline,
      the public methods, the constructor.

    What the platform does in time is not modelled: a request that the
    timer cancels appears as a [fetch] that rejects with an error named
    AbortError. *)

From Stdlib Require Import Ascii String.
From Stdlib Require Import List ZArith NArith Bool Lia.
From Stdlib Require Decimal DecimalNat.
Import ListNotations.

Set Implicit Arguments.
Set Warnings "-register-all".

(* ================================================================== *)
(** * Platform values                                                   *)
(* ================================================================== *)

Module JS.

(** A JavaScript string is a sequence of UTF-16 code units. *)
Definition jsstring : Type := list N.

(** String literals of the source, written in ASCII. *)
Definition lit (s : string) : jsstring :=
  List.map N_of_ascii (list_ascii_of_string s).

Definition jsstring_eqb (a b : jsstring) : bool :=
  if list_eq_dec N.eq_dec a b then true else false.

(** ECMAScript WhiteSpace and LineTerminator code points: the set that
    [String.prototype.trim] strips, that the regular expression class
    [\s] matches, and that [parseInt] skips. *)
Definition isWhiteSpace (c : N) : bool :=
  match c with
  | 9 | 10 | 11 | 12 | 13 | 32 | 160 | 5760
  | 8192 | 8193 | 8194 | 8195 | 8196 | 8197 | 8198 | 8199 | 8200 | 8201 | 8202
  | 8232 | 8233 | 8239 | 8287 | 12288 | 65279 => true
  | _ => false
  end%N.

(** [String.prototype.trimStart], [trimEnd] and [trim]. *)
Fixpoint trimStart (s : jsstring) : jsstring :=
  match s with
  | [] => []
  | c :: r => if isWhiteSpace c then trimStart r else s
  end.

Definition trimEnd (s : jsstring) : jsstring := rev (trimStart (rev s)).

Definition trim (s : jsstring) : jsstring := trimEnd (trimStart s).

(** [s.split(/\s+/)].  The separator matches a maximal run of white
    space; it never matches the empty string, so the result always has
    at least one token and the tokens next to a leading or trailing run
    are empty.  [cur] is the token being read, reversed; [insep] tells
    that the previous code unit belonged to a separator. *)
Fixpoint split_ws_from (cur : jsstring) (insep : bool) (s : jsstring)
  : list jsstring :=
  match s with
  | [] => [rev cur]
  | c :: r =>
      if isWhiteSpace c
      then if insep then split_ws_from cur true r
           else rev cur :: split_ws_from [] true r
      else split_ws_from (c :: cur) false r
  end.

Definition split_ws (s : jsstring) : list jsstring := split_ws_from [] false s.

(** Decimal rendering of a non-negative integer, as a template literal
    renders a number that is one. *)
Fixpoint uint_digits (d : Decimal.uint) : jsstring :=
  match d with
  | Decimal.Nil => []
  | Decimal.D0 r => 48%N :: uint_digits r
  | Decimal.D1 r => 49%N :: uint_digits r
  | Decimal.D2 r => 50%N :: uint_digits r
  | Decimal.D3 r => 51%N :: uint_digits r
  | Decimal.D4 r => 52%N :: uint_digits r
  | Decimal.D5 r => 53%N :: uint_digits r
  | Decimal.D6 r => 54%N :: uint_digits r
  | Decimal.D7 r => 55%N :: uint_digits r
  | Decimal.D8 r => 56%N :: uint_digits r
  | Decimal.D9 r => 57%N :: uint_digits r
  end.

Definition show_nat (n : nat) : jsstring := uint_digits (Nat.to_uint n).

(** A JavaScript number, represented by the decimal it denotes:
    [Dec neg m e] is (-1)^neg * m * 10^e.  The decimal is kept as it was
    read; where the platform looks at the value of the number, the
    decimal is rounded to binary64 (below). *)
Inductive number : Type :=
  | NaN
  | Infinity (neg : bool)
  | Dec (neg : bool) (m : N) (e : Z).

Definition of_Z (z : Z) : number := Dec (z <? 0)%Z (Z.abs_N z) 0.

(** ** Numbers as binary64 values

    Where the platform looks at the value of a number (to print it, to
    round an integer it has read), the decimal is rounded to the nearest
    binary64 value, ties to even. *)

(** The positive rational p / q times b^k, as a pair of positive
    integers. *)
Definition scale (b p q k : Z) : Z * Z :=
  (if 0 <=? k then (p * b ^ k, q) else (p, q * b ^ (- k)))%Z.

(** [B64 M E] is M * 2^E, with 2^52 <= M < 2^53 and -1074 <= E <= 971,
    or M < 2^52 and E = -1074. *)
Inductive binary64 : Type :=
  | B64_zero
  | B64_inf
  | B64 (M : Z) (E : Z).

(** The binary64 value nearest to the positive rational p / q. *)
Definition round_binary64 (p q : Z) : binary64 :=
  (let d := Z.log2 p - Z.log2 q in
   let '(p1, q1) := scale 2 p q (- d) in
   let E0 := (if q1 <=? p1 then d else d - 1) - 52 in
   let E := Z.max E0 (-1074) in
   let '(num, den) := scale 2 p q (- E) in
   let M0 := num / den in
   let r := num mod den in
   let M := if (den <? 2 * r) || ((den =? 2 * r) && Z.odd M0)
            then M0 + 1 else M0 in
   let '(M, E) := if M =? 2 ^ 53 then (2 ^ 52, E + 1) else (M, E) in
   if M =? 0 then B64_zero
   else if 971 <? E then B64_inf
   else B64 M E)%Z.

Definition binary64_of_decimal (m : N) (e : Z) : binary64 :=
  if (m =? 0)%N then B64_zero
  else let '(p, q) := scale 10 (Z.of_N m) 1 e in round_binary64 p q.

Definition binary64_eqb (a b : binary64) : bool :=
  match a, b with
  | B64_zero, B64_zero => true
  | B64_inf, B64_inf => true
  | B64 M E, B64 M' E' => ((M =? M') && (E =? E'))%Z
  | _, _ => false
  end.

(** ** Number::toString

    The digits are those of the shortest decimal that rounds to the
    number, the nearest to it when there are several; they are laid out
    in positional form when the decimal exponent [n] is between -5 and
    21, and in exponent form otherwise. *)

(** The [n] with 10^(n-1) <= p / q < 10^n. *)
Definition decimal_exponent (p q : Z) : Z :=
  (let est := ((Z.log2 p - Z.log2 q) * 30103) / 100000 in
   let fits n :=
     let '(a, b) := scale 10 p q (- (n - 1)) in
     (b <=? a) && (a <? 10 * b) in
   match find fits [est - 1; est; est + 1; est + 2; est + 3; est - 2] with
   | Some n => n
   | None => est
   end)%Z.

(** A decimal of [k] digits that rounds to M * 2^E, if there is one:
    [(s, n)] stands for s * 10^(n - k). *)
Definition shortest_candidate (M E n k : Z) : option (Z * Z) :=
  (let '(vp, vq) := scale 2 M 1 E in
   let '(num, den) := scale 10 vp vq (k - n) in
   let lo := num / den in
   let r := num mod den in
   let hi := lo + 1 in
   let ok s :=
     binary64_eqb (binary64_of_decimal (Z.to_N s) (n - k)) (B64 M E) in
   let norm s := if s =? 10 ^ k then (10 ^ (k - 1), n + 1) else (s, n) in
   if ok lo && ok hi
   then if (2 * r <? den) || ((2 * r =? den) && Z.even lo)
        then Some (lo, n) else Some (norm hi)
   else if ok lo then Some (lo, n)
   else if ok hi then Some (norm hi)
   else None)%Z.

(** The least [k] from [k] on that has a candidate; 17 digits always
    suffice. *)
Fixpoint shortest_from (M E n k : Z) (tries : nat) : Z * Z * Z :=
  match tries with
  | O => (M, n, k)
  | S tries' =>
      match shortest_candidate M E n k with
      | Some (s, n') => (s, n', k)
      | None => shortest_from M E n (k + 1)%Z tries'
      end
  end.

Definition digits_Z (z : Z) : jsstring := uint_digits (N.to_uint (Z.to_N z)).

Definition zeros (n : Z) : jsstring := repeat 48%N (Z.to_nat n).

Definition format_digits (s n k : Z) : jsstring :=
  let ds := digits_Z s in
  if ((k <=? n) && (n <=? 21))%Z then ds ++ zeros (n - k)
  else if ((0 <? n) && (n <=? 21))%Z
  then firstn (Z.to_nat n) ds ++ lit "." ++ skipn (Z.to_nat n) ds
  else if ((-6 <? n) && (n <=? 0))%Z
  then lit "0." ++ zeros (- n) ++ ds
  else
    let e := (n - 1)%Z in
    let exp := (if (e <? 0)%Z then lit "-" else lit "+") ++ digits_Z (Z.abs e) in
    if (k =? 1)%Z then ds ++ lit "e" ++ exp
    else firstn 1 ds ++ lit "." ++ skipn 1 ds ++ lit "e" ++ exp.

Definition Number_toString (x : number) : jsstring :=
  match x with
  | NaN => lit "NaN"
  | Infinity neg => if neg then lit "-Infinity" else lit "Infinity"
  | Dec neg m e =>
      match binary64_of_decimal m e with
      | B64_zero => lit "0"
      | B64_inf => if neg then lit "-Infinity" else lit "Infinity"
      | B64 M E =>
          let '(vp, vq) := scale 2 M 1 E in
          let n := decimal_exponent vp vq in
          let '(s, n', k) := shortest_from M E n 1 17 in
          (if neg then lit "-" else []) ++ format_digits s n' k
      end
  end.

(** The number whose value is the integer [m] rounded to binary64; the
    integers up to 2^53 are binary64 values themselves. *)
Definition round_integer (neg : bool) (m : N) : number :=
  if (m <=? 2 ^ 53)%N then Dec neg m 0
  else
    match binary64_of_decimal m 0 with
    | B64_zero => Dec neg 0 0
    | B64_inf => Infinity neg
    | B64 M E => Dec neg (Z.to_N (M * 2 ^ E)) 0
    end.

(** Does the binary64 value nearest to m * 10^e equal zero?  It does when
    m is 0 and when m * 10^e is at most 2^-1075, half the least
    subnormal. *)
Definition Dec_is_zero (m : N) (e : Z) : bool :=
  (m =? 0)%N ||
  ((e <? 0)%Z && (Z.of_N m * 2 ^ 1075 <=? 10 ^ (- e))%Z).

(** JavaScript values, as far as the client can meet them: arguments of
    the public methods and results of [JSON.parse].  [VArray] is an array
    without holes, the list of its elements; [VSparse] is an array that
    may have holes, the list of its positions, [None] for a hole.  An
    object is the list of its own properties in insertion order. *)
Inductive JsValue : Type :=
  | VUndefined
  | VNull
  | VBool (b : bool)
  | VNumber (n : number)
  | VString (s : jsstring)
  | VArray (elems : list JsValue)
  | VSparse (slots : list (option JsValue))
  | VObject (props : list (jsstring * JsValue)).

(** The abstract operation ToBoolean. *)
Definition ToBoolean (v : JsValue) : bool :=
  match v with
  | VUndefined | VNull => false
  | VBool b => b
  | VNumber NaN => false
  | VNumber (Infinity _) => true
  | VNumber (Dec _ m e) => negb (Dec_is_zero m e)
  | VString s => negb (Nat.eqb (length s) 0)
  | VArray _ | VSparse _ | VObject _ => true
  end.

(** [typeof v === 'string'] and [Array.isArray(v)]. *)
Definition typeof_is_string (v : JsValue) : bool :=
  match v with VString _ => true | _ => false end.


(** The positions of an array, [None] for a hole; [None] when the value
    is not an array. *)
Definition array_slots (v : JsValue) : option (list (option JsValue)) :=
  match v with
  | VArray elems => Some (List.map Some elems)
  | VSparse slots => Some slots
  | _ => None
  end.

(** [a || b]. *)
Definition js_or (a b : JsValue) : JsValue := if ToBoolean a then a else b.

(** ** parseInt *)

Definition digit_value (c : N) : option N :=
  if ((48 <=? c) && (c <=? 57))%N then Some (c - 48)%N else None.

(** The value of the longest prefix of decimal digits; [None] when the
    prefix is empty. *)
Fixpoint digits_prefix (acc : N) (seen : bool) (s : jsstring) : option N :=
  match s with
  | [] => if seen then Some acc else None
  | c :: r =>
      match digit_value c with
      | Some d => digits_prefix (acc * 10 + d)%N true r
      | None => if seen then Some acc else None
      end
  end.

(** [parseInt(s, 10)]: leading white space is skipped, one sign is read,
    then the longest run of decimal digits; what follows is ignored.  With
    no digit the result is [NaN]; otherwise it is the number nearest to
    the integer read (for a numeral of more than 20 digits the platform
    may approximate; the nearest number is taken here). *)
Definition parseInt10 (s : jsstring) : number :=
  let t := trimStart s in
  let '(neg, body) :=
    match t with
    | 45%N :: r => (true, r)
    | 43%N :: r => (false, r)
    | _ => (false, t)
    end in
  match digits_prefix 0 false body with
  | None => NaN
  | Some m => round_integer neg m
  end.

(** ** JSON.parse

    The text is read by a lexer that consumes one code unit at a time and
    a parser that consumes one token at a time and keeps the containers
    under construction on a stack; both are folds over their input. *)

Inductive token : Type :=
  | TLBrace | TRBrace | TLBracket | TRBracket | TColon | TComma
  | TString (s : jsstring)
  | TNumber (n : number)
  | TTrue | TFalse | TNull.

(** Where the lexer stands inside a number:
    [-]? ( 0 | [1-9][0-9]* ) ( . [0-9]+ )? ( [eE] [+-]? [0-9]+ )? *)
Inductive num_phase : Type :=
  | NMinus | NZero | NInt | NDot | NFrac | NE | NESign | NExp.

Record num_acc : Type := mkNum {
  n_phase : num_phase;
  n_neg : bool;        (* a leading minus was read *)
  n_m : N;             (* the digits of the integer and fraction parts *)
  n_scale : Z;         (* minus the number of fraction digits *)
  n_eneg : bool;       (* the exponent has a minus *)
  n_exp : N            (* the digits of the exponent *)
}.

Definition num_accepting (a : num_acc) : bool :=
  match n_phase a with
  | NZero | NInt | NFrac | NExp => true
  | _ => false
  end.

Definition num_value (a : num_acc) : number :=
  Dec (n_neg a) (n_m a)
      (n_scale a + (if n_eneg a then - Z.of_N (n_exp a) else Z.of_N (n_exp a))).

Definition is_e (c : N) : bool := ((c =? 101) || (c =? 69))%N.

(** One more code unit of a number; [None] when [c] cannot continue it. *)
Definition num_step (a : num_acc) (c : N) : option num_acc :=
  let set_phase p := mkNum p (n_neg a) (n_m a) (n_scale a) (n_eneg a) (n_exp a) in
  match n_phase a, digit_value c with
  | NMinus, Some d =>
      Some (mkNum (if (d =? 0)%N then NZero else NInt) (n_neg a) d 0 false 0)
  | NInt, Some d =>
      Some (mkNum NInt (n_neg a) (n_m a * 10 + d) 0 false 0)
  | (NDot | NFrac), Some d =>
      Some (mkNum NFrac (n_neg a) (n_m a * 10 + d) (n_scale a - 1) false 0)
  | (NE | NESign | NExp), Some d =>
      Some (mkNum NExp (n_neg a) (n_m a) (n_scale a) (n_eneg a) (n_exp a * 10 + d))
  | (NZero | NInt), None =>
      if (c =? 46)%N then Some (set_phase NDot)
      else if is_e c then Some (set_phase NE)
      else None
  | NFrac, None => if is_e c then Some (set_phase NE) else None
  | NE, None =>
      if (c =? 43)%N then Some (set_phase NESign)
      else if (c =? 45)%N
      then Some (mkNum NESign (n_neg a) (n_m a) (n_scale a) true 0)
      else None
  | _, _ => None
  end.

Inductive lex_state : Type :=
  | LIdle
  | LStr (acc : jsstring)                   (* in a string; [acc] reversed *)
  | LEsc (acc : jsstring)                   (* after a backslash *)
  | LHex (acc : jsstring) (k : nat) (v : N) (* in \u, [S k] digits to read *)
  | LNum (a : num_acc)
  | LWord (rest : jsstring) (t : token).    (* in true, false or null *)

Definition hex_value (c : N) : option N :=
  if ((48 <=? c) && (c <=? 57))%N then Some (c - 48)%N
  else if ((97 <=? c) && (c <=? 102))%N then Some (c - 87)%N
  else if ((65 <=? c) && (c <=? 70))%N then Some (c - 55)%N
  else None.

Definition lex_idle (c : N) : option (lex_state * list token) :=
  match c with
  | 9 | 10 | 13 | 32 => Some (LIdle, [])
  | 123 => Some (LIdle, [TLBrace])
  | 125 => Some (LIdle, [TRBrace])
  | 91 => Some (LIdle, [TLBracket])
  | 93 => Some (LIdle, [TRBracket])
  | 58 => Some (LIdle, [TColon])
  | 44 => Some (LIdle, [TComma])
  | 34 => Some (LStr [], [])
  | 45 => Some (LNum (mkNum NMinus true 0 0 false 0), [])
  | 48 => Some (LNum (mkNum NZero false 0 0 false 0), [])
  | 116 => Some (LWord (lit "rue") TTrue, [])
  | 102 => Some (LWord (lit "alse") TFalse, [])
  | 110 => Some (LWord (lit "ull") TNull, [])
  | _ =>
      match digit_value c with
      | Some d => Some (LNum (mkNum NInt false d 0 false 0), [])
      | None => None
      end
  end%N.

Definition lex_step (st : lex_state) (c : N) : option (lex_state * list token) :=
  match st with
  | LIdle => lex_idle c
  | LStr acc =>
      if (c =? 34)%N then Some (LIdle, [TString (rev acc)])
      else if (c =? 92)%N then Some (LEsc acc, [])
      else if (c <? 32)%N then None
      else Some (LStr (c :: acc), [])
  | LEsc acc =>
      match c with
      | 34 => Some (LStr (34 :: acc), [])
      | 92 => Some (LStr (92 :: acc), [])
      | 47 => Some (LStr (47 :: acc), [])
      | 98 => Some (LStr (8 :: acc), [])
      | 102 => Some (LStr (12 :: acc), [])
      | 110 => Some (LStr (10 :: acc), [])
      | 114 => Some (LStr (13 :: acc), [])
      | 116 => Some (LStr (9 :: acc), [])
      | 117 => Some (LHex acc 3 0, [])
      | _ => None
      end%N
  | LHex acc k v =>
      match hex_value c with
      | None => None
      | Some d =>
          match k with
          | O => Some (LStr ((v * 16 + d)%N :: acc), [])
          | S k' => Some (LHex acc k' (v * 16 + d)%N, [])
          end
      end
  | LNum a =>
      match num_step a c with
      | Some a' => Some (LNum a', [])
      | None =>
          if num_accepting a
          then match lex_idle c with
               | Some (st', toks) => Some (st', TNumber (num_value a) :: toks)
               | None => None
               end
          else None
      end
  | LWord rest t =>
      match rest with
      | [] => None
      | x :: rest' =>
          if (c =? x)%N
          then match rest' with
               | [] => Some (LIdle, [t])
               | _ => Some (LWord rest' t, [])
               end
          else None
      end
  end.

Definition lex_finish (st : lex_state) : option (list token) :=
  match st with
  | LIdle => Some []
  | LNum a => if num_accepting a then Some [TNumber (num_value a)] else None
  | _ => None
  end.

Fixpoint lex_from (st : lex_state) (s : jsstring) : option (list token) :=
  match s with
  | [] => lex_finish st
  | c :: r =>
      match lex_step st c with
      | None => None
      | Some (st', toks) =>
          match lex_from st' r with
          | None => None
          | Some more => Some (toks ++ more)
          end
      end
  end.

(** Own properties: defining a key that exists replaces its value in
    place, a new key goes last. *)
Fixpoint set_prop (ps : list (jsstring * JsValue)) (k : jsstring) (v : JsValue)
  : list (jsstring * JsValue) :=
  match ps with
  | [] => [(k, v)]
  | (k', v') :: r =>
      if jsstring_eqb k' k then (k, v) :: r else (k', v') :: set_prop r k v
  end.

Fixpoint get_prop (ps : list (jsstring * JsValue)) (k : jsstring)
  : option JsValue :=
  match ps with
  | [] => None
  | (k', v) :: r => if jsstring_eqb k' k then Some v else get_prop r k
  end.

(** A container under construction. *)
Inductive frame : Type :=
  | FArr (elems : list JsValue)                          (* reversed *)
  | FObj (props : list (jsstring * JsValue)) (key : jsstring).

Inductive mode : Type :=
  | MValue        (* a value must come *)
  | MFirstElem    (* after an opening bracket: a value or the closing one *)
  | MFirstKey     (* after an opening brace: a key or the closing one *)
  | MKey          (* after a comma in an object: a key *)
  | MColon        (* after a key *)
  | MAfter        (* after a value inside a container *)
  | MDone (v : JsValue).

Definition complete (v : JsValue) (stack : list frame) : mode * list frame :=
  match stack with
  | [] => (MDone v, [])
  | FArr es :: st => (MAfter, FArr (v :: es) :: st)
  | FObj ps k :: st => (MAfter, FObj (set_prop ps k v) k :: st)
  end.

Definition parse_value_token (t : token) (stack : list frame)
  : option (mode * list frame) :=
  match t with
  | TLBracket => Some (MFirstElem, FArr [] :: stack)
  | TLBrace => Some (MFirstKey, FObj [] [] :: stack)
  | TString s => Some (complete (VString s) stack)
  | TNumber n => Some (complete (VNumber n) stack)
  | TTrue => Some (complete (VBool true) stack)
  | TFalse => Some (complete (VBool false) stack)
  | TNull => Some (complete VNull stack)
  | _ => None
  end.

Definition parse_key_token (t : token) (stack : list frame)
  : option (mode * list frame) :=
  match t, stack with
  | TString k, FObj ps _ :: st => Some (MColon, FObj ps k :: st)
  | _, _ => None
  end.

Definition parse_step (m : mode) (stack : list frame) (t : token)
  : option (mode * list frame) :=
  match m with
  | MValue => parse_value_token t stack
  | MFirstElem =>
      match t, stack with
      | TRBracket, FArr _ :: st => Some (complete (VArray []) st)
      | _, _ => parse_value_token t stack
      end
  | MFirstKey =>
      match t, stack with
      | TRBrace, FObj _ _ :: st => Some (complete (VObject []) st)
      | _, _ => parse_key_token t stack
      end
  | MKey => parse_key_token t stack
  | MColon => match t with TColon => Some (MValue, stack) | _ => None end
  | MAfter =>
      match t, stack with
      | TComma, FArr _ :: _ => Some (MValue, stack)
      | TRBracket, FArr es :: st => Some (complete (VArray (rev es)) st)
      | TComma, FObj _ _ :: _ => Some (MKey, stack)
      | TRBrace, FObj ps _ :: st => Some (complete (VObject ps) st)
      | _, _ => None
      end
  | MDone _ => None
  end.

Fixpoint parse_from (m : mode) (stack : list frame) (ts : list token)
  : option JsValue :=
  match ts with
  | [] => match m with MDone v => Some v | _ => None end
  | t :: r =>
      match parse_step m stack t with
      | None => None
      | Some (m', stack') => parse_from m' stack' r
      end
  end.

(** [JSON.parse(text)]; [None] stands for the SyntaxError it throws. *)
Definition JSON_parse (text : jsstring) : option JsValue :=
  match lex_from LIdle text with
  | None => None
  | Some ts => parse_from MValue [] ts
  end.

(** Reading a property [v.k]: a TypeError ([None]) on [undefined] and
    [null]; an own property of an object; [undefined] otherwise (none of
    the keys the client reads is defined on a built-in prototype). *)
Definition Get (v : JsValue) (k : jsstring) : option JsValue :=
  match v with
  | VUndefined | VNull => None
  | VObject ps =>
      match get_prop ps k with
      | Some x => Some x
      | None => Some VUndefined
      end
  | _ => Some VUndefined
  end.

(** The abstract operation ToString on the values above; [None] stands
    for the TypeError it throws.  An array is joined with commas, with
    nothing for [undefined], [null] and a hole.  An object made by
    [JSON.parse] converts through the [toString] it inherits, unless it
    has a property of that name: a value read from JSON is never a
    function, and then neither [toString] nor [valueOf] gives a
    primitive. *)
Fixpoint ToString (v : JsValue) : option jsstring :=
  match v with
  | VUndefined => Some (lit "undefined")
  | VNull => Some (lit "null")
  | VBool b => Some (if b then lit "true" else lit "false")
  | VNumber n => Some (Number_toString n)
  | VString s => Some s
  | VArray elems =>
      (fix join (first : bool) (l : list JsValue) : option jsstring :=
         match l with
         | [] => Some []
         | x :: r =>
             match match x with
                   | VUndefined | VNull => Some []
                   | _ => ToString x
                   end with
             | None => None
             | Some piece =>
                 match join false r with
                 | None => None
                 | Some rest =>
                     Some ((if first then [] else [44%N]) ++ piece ++ rest)
                 end
             end
         end) true elems
  | VSparse slots =>
      (fix join (first : bool) (l : list (option JsValue)) : option jsstring :=
         match l with
         | [] => Some []
         | x :: r =>
             match match x with
                   | None | Some VUndefined | Some VNull => Some []
                   | Some y => ToString y
                   end with
             | None => None
             | Some piece =>
                 match join false r with
                 | None => None
                 | Some rest =>
                     Some ((if first then [] else [44%N]) ++ piece ++ rest)
                 end
             end
         end) true slots
  | VObject props =>
      match get_prop props (lit "toString") with
      | Some _ => None
      | None => Some (lit "[object Object]")
      end
  end.

(** The message that [new Error(message)] stores: the string conversion
    of the argument; for [undefined] nothing is stored, and the message
    read is the empty string of [Error.prototype]. *)
Definition Error_message (message : JsValue) : option jsstring :=
  match message with
  | VUndefined => Some []
  | _ => ToString message
  end.

(** JSON text written with apostrophes where JSON has double quotes. *)
Definition json_lit (s : string) : jsstring :=
  List.map (fun c => if (c =? 39)%N then 34%N else c) (lit s).

End JS.

Import JS.

(* ================================================================== *)
(** * errors.ts                                                         *)
(* ================================================================== *)

Module Errors.

(** An [Error] instance that is not of the library: what the platform
    throws ([TypeError] on a failed connection, a [DOMException] named
    AbortError on cancellation, [SyntaxError] on a malformed body). *)
Record JsError : Type := mkJsError {
  err_name : jsstring;
  err_message : jsstring;
  err_isTypeError : bool        (* [e instanceof TypeError] *)
}.

(** The subclasses of [EmotionAnalyzerError], each with the fields its
    constructor sets.  [message] is what [Error] stores: the string
    conversion of the argument handed to [super]. *)
Inductive EmotionAnalyzerError : Type :=
  | RateLimitError (message : jsstring) (retryAfter : option number)
  | ValidationError (message : jsstring) (field : option jsstring)
  | ApiError (message : jsstring) (statusCode : Z) (responseBody : option jsstring)
  | TimeoutError (message : jsstring) (timeout : Z)
  | NetworkError (message : jsstring) (cause : option JsError).

Definition name (e : EmotionAnalyzerError) : jsstring :=
  match e with
  | RateLimitError _ _ => lit "RateLimitError"
  | ValidationError _ _ => lit "ValidationError"
  | ApiError _ _ _ => lit "ApiError"
  | TimeoutError _ _ => lit "TimeoutError"
  | NetworkError _ _ => lit "NetworkError"
  end.

(** [RateLimitError.statusCode] is the constant 429. *)
Definition RateLimitError_statusCode : Z := 429.

(** [new TimeoutError(timeout)]; the template literal prints the number
    that the timeout is. *)
Definition new_TimeoutError (timeout : Z) : EmotionAnalyzerError :=
  TimeoutError (lit "Request timed out after "
                ++ Number_toString (of_Z timeout) ++ lit "ms")
               timeout.

(** The [field] of a [ValidationError]; no other class has one. *)
Definition field_of (e : EmotionAnalyzerError) : option jsstring :=
  match e with
  | ValidationError _ f => f
  | _ => None
  end.

End Errors.

Import Errors.

(* ================================================================== *)
(** * types.ts                                                          *)
(* ================================================================== *)

Record EmotionScore : Type := mkEmotionScore {
  emotion : jsstring;
  score : number
}.

Module ApiAnalyzeResponse.
Record t : Type := mk {
  primary_emotion : jsstring;
  confidence : number;
  all_emotions : list EmotionScore
}.
End ApiAnalyzeResponse.

Module ApiBatchResponse.
Record t : Type := mk {
  results : list ApiAnalyzeResponse.t;
  count : Z
}.
End ApiBatchResponse.

Module EmotionResult.
Record t : Type := mk {
  primaryEmotion : jsstring;
  confidence : number;
  allEmotions : list EmotionScore
}.
End EmotionResult.

Module BatchEmotionResult.
Record t : Type := mk {
  results : list EmotionResult.t;
  count : Z
}.
End BatchEmotionResult.

(** [EmotionAnalyzerOptions]: both members are optional; [None] is an
    absent (or [undefined], or [null]) member. *)
Record EmotionAnalyzerOptions : Type := mkOptions {
  opt_baseUrl : option jsstring;
  opt_timeout : option Z
}.

(* ================================================================== *)
(** * client.ts                                                         *)
(* ================================================================== *)

Module Client.

(** ** Control flow: what a call returns or throws *)

(** A thrown value that is not an error of the library. *)
Inductive Foreign : Type :=
  | FError (e : JsError)
  | FValue (v : JsValue).

Inductive Thrown : Type :=
  | ThrowLib (e : EmotionAnalyzerError)
  | ThrowForeign (f : Foreign).

(** The completion of a call (for an async function: how its promise
    settles). *)
Inductive Outcome (A : Type) : Type :=
  | Done (a : A)
  | Raise (t : Thrown).

Arguments Done {A} a.
Arguments Raise {A} t.

Definition bind {A B : Type} (x : Outcome A) (k : A -> Outcome B) : Outcome B :=
  match x with
  | Done a => k a
  | Raise t => Raise t
  end.

Notation "x <- c ;; k" := (bind c (fun x => k))
  (at level 61, c at next level, right associativity).
Notation "c ;;; k" := (bind c (fun _ => k))
  (at level 61, right associativity).

(** [v.trim()] on an arbitrary value: a TypeError when [v] is not a
    string (the text of its message depends on the engine). *)
Definition TypeError_no_trim : JsError :=
  mkJsError (lit "TypeError") (lit "trim is not a function") true.

Definition String_trim (v : JsValue) : Outcome jsstring :=
  match v with
  | VString s => Done (trim s)
  | _ => Raise (ThrowForeign (FError TypeError_no_trim))
  end.

(** ** Constants *)

Definition DEFAULT_BASE_URL : jsstring :=
  lit "https://itsKrish01-emotion-checker.hf.space".

Definition DEFAULT_TIMEOUT : Z := 30000.

Definition MAX_WORDS_PER_TEXT : nat := 100.

Definition MAX_BATCH_SIZE : nat := 10.

(** ** countWords and transformResponse *)

Definition countWords (text : jsstring) : nat :=
  length (filter (fun word => 0 <? length word) (split_ws (trim text))).

Definition transformResponse (response : ApiAnalyzeResponse.t) : EmotionResult.t :=
  EmotionResult.mk
    (ApiAnalyzeResponse.primary_emotion response)
    (ApiAnalyzeResponse.confidence response)
    (ApiAnalyzeResponse.all_emotions response).

(** ** The client and its constructor *)

Record EmotionAnalyzer : Type := mkEmotionAnalyzer {
  baseUrl : jsstring;
  timeout : Z                       (* a whole number of milliseconds *)
}.

(** [s.replace(/\/$/, '')]: the pattern matches a slash that is the last
    code unit, and [replace] removes that one match. *)
Definition replace_trailing_slash (s : jsstring) : jsstring :=
  match rev s with
  | 47%N :: r => rev r
  | _ => s
  end.

(** [options.baseUrl || DEFAULT_BASE_URL]. *)
Definition baseUrl_or_default (b : option jsstring) : jsstring :=
  match b with
  | Some s => if ToBoolean (VString s) then s else DEFAULT_BASE_URL
  | None => DEFAULT_BASE_URL
  end.

(** [options.timeout ?? DEFAULT_TIMEOUT]. *)
Definition timeout_or_default (t : option Z) : Z :=
  match t with
  | Some ms => ms
  | None => DEFAULT_TIMEOUT
  end.

Definition constructor (options : EmotionAnalyzerOptions) : EmotionAnalyzer :=
  mkEmotionAnalyzer
    (replace_trailing_slash (baseUrl_or_default (opt_baseUrl options)))
    (timeout_or_default (opt_timeout options)).

(** ** Validation *)

Definition throw {A : Type} (e : EmotionAnalyzerError) : Outcome A :=
  Raise (ThrowLib e).

Definition validateText (text : JsValue) : Outcome unit :=
  if negb (ToBoolean text) || negb (typeof_is_string text)
  then throw (ValidationError (lit "Text is required and must be a string")
                              (Some (lit "text")))
  else
    trimmedText <- String_trim text ;;
    if length trimmedText =? 0
    then throw (ValidationError (lit "Text cannot be empty") (Some (lit "text")))
    else
      let wordCount := countWords trimmedText in
      if MAX_WORDS_PER_TEXT <? wordCount
      then throw (ValidationError
                    (lit "Text exceeds maximum word limit. Got "
                     ++ show_nat wordCount
                     ++ lit " words, maximum is "
                     ++ show_nat MAX_WORDS_PER_TEXT)
                    (Some (lit "text")))
      else Done tt.

(** The callback that [validateBatchTexts] hands to [forEach]. *)
Definition validateBatchElement (text : JsValue) (index : nat) : Outcome unit :=
  if negb (ToBoolean text) || negb (typeof_is_string text)
  then throw (ValidationError
                (lit "Text at index " ++ show_nat index
                 ++ lit " is required and must be a string")
                (Some (lit "texts")))
  else
    trimmedText <- String_trim text ;;
    if length trimmedText =? 0
    then throw (ValidationError
                  (lit "Text at index " ++ show_nat index
                   ++ lit " cannot be empty")
                  (Some (lit "texts")))
    else
      let wordCount := countWords trimmedText in
      if MAX_WORDS_PER_TEXT <? wordCount
      then throw (ValidationError
                    (lit "Text at index " ++ show_nat index
                     ++ lit " exceeds maximum word limit. Got "
                     ++ show_nat wordCount
                     ++ lit " words, maximum is "
                     ++ show_nat MAX_WORDS_PER_TEXT)
                    (Some (lit "texts")))
      else Done tt.

(** [array.forEach(callback)]: the callback runs on the elements in
    index order, a hole is skipped, an exception leaves the loop. *)
Fixpoint forEach_from (callback : JsValue -> nat -> Outcome unit)
    (slots : list (option JsValue)) (index : nat) : Outcome unit :=
  match slots with
  | [] => Done tt
  | None :: r => forEach_from callback r (S index)
  | Some x :: r => callback x index ;;; forEach_from callback r (S index)
  end.

Definition validateBatchTexts (texts : JsValue) : Outcome unit :=
  match array_slots texts with
  | Some slots =>
      if length slots =? 0
      then throw (ValidationError (lit "At least one text is required")
                                  (Some (lit "texts")))
      else if MAX_BATCH_SIZE <? length slots
      then throw (ValidationError
                    (lit "Batch size exceeds maximum limit. Got "
                     ++ show_nat (length slots)
                     ++ lit " texts, maximum is "
                     ++ show_nat MAX_BATCH_SIZE)
                    (Some (lit "texts")))
      else forEach_from validateBatchElement slots 0
  | None =>
      throw (ValidationError (lit "Texts must be an array") (Some (lit "texts")))
  end.

(** ** The transport

    [fetch] and the [Response] it resolves to belong to the platform; the
    client sees them through the members it uses. *)

(** The object serialised into the request body with [JSON.stringify].
    A position of [texts] that is [None] is a hole of the array, which
    [JSON.stringify] writes as [null]. *)
Inductive Payload : Type :=
  | TextPayload (text : jsstring)                     (* { text } *)
  | TextsPayload (texts : list (option jsstring)).    (* { texts } *)

Record Request : Type := mkRequest {
  req_url : jsstring;
  req_method : jsstring;
  req_headers : list (jsstring * jsstring);
  req_body : Payload
}.

(** How a promise of the platform settles. *)
Inductive Settled (A : Type) : Type :=
  | Fulfilled (a : A)
  | Rejected (f : Foreign).

Arguments Fulfilled {A} a.
Arguments Rejected {A} f.

(** A [Response] whose body, read with [json()], is cast to [T].  The
    body is taken at the type of the cast: a response whose body has
    another shape is not among the inputs of the model. *)
Record Response (T : Type) : Type := mkResponse {
  status : Z;
  headers_get : jsstring -> option jsstring;    (* [headers.get(name)] *)
  text : Settled jsstring;                      (* [text()] *)
  json : Settled T                              (* [json()] *)
}.

(** [response.ok]: the status is in the range 200 to 299. *)
Definition ok {T : Type} (response : Response T) : bool :=
  (200 <=? status response)%Z && (status response <=? 299)%Z.

Definition Fetch (T : Type) : Type := Request -> Settled (Response T).

(** What a call does to the platform, in order. *)
Inductive Event : Type :=
  | EvSetTimeout (ms : Z)
  | EvFetch (r : Request)
  | EvClearTimeout.

(** ** request *)

(** [retryAfter ? parseInt(retryAfter, 10) : undefined], where
    [retryAfter] is [headers.get('Retry-After')] ([null] when the header
    is missing). *)
Definition retryAfter_of (header : option jsstring) : option number :=
  match header with
  | Some h => if ToBoolean (VString h) then Some (parseInt10 h) else None
  | None => None
  end.

(** The message of an [ApiError]: the default, replaced inside the inner
    [try] by [detail || message || error || default] when the body parses
    and its properties can be read. *)
Definition default_errorMessage (st : Z) : JsValue :=
  VString (lit "API request failed with status "
           ++ Number_toString (of_Z st)).

Definition errorMessage_of (st : Z) (responseText : jsstring) : JsValue :=
  let errorMessage := default_errorMessage st in
  match JSON_parse responseText with
  | None => errorMessage
  | Some errorData =>
      match Get errorData (lit "detail"),
            Get errorData (lit "message"),
            Get errorData (lit "error") with
      | Some d, Some m, Some e => js_or d (js_or m (js_or e errorMessage))
      | _, _, _ => errorMessage
      end
  end.

(** The TypeError of a value that has no string conversion (the text of
    its message depends on the engine). *)
Definition TypeError_to_primitive : JsError :=
  mkJsError (lit "TypeError")
    (lit "Cannot convert object to primitive value") true.

(** [throw new ApiError(errorMessage, status, responseText)]: [Error]
    converts the message to a string, and the conversion may throw. *)
Definition throw_ApiError {A : Type} (errorMessage : JsValue) (st : Z)
    (responseText : jsstring) : Outcome A :=
  match Error_message errorMessage with
  | Some message => throw (ApiError message st (Some responseText))
  | None => Raise (ThrowForeign (FError TypeError_to_primitive))
  end.

(** The body of the [try] block, from the settled [fetch] on; the events
    are those after the [fetch]. *)
Definition request_try {T : Type} (fetched : Settled (Response T))
  : list Event * Outcome T :=
  match fetched with
  | Rejected f => ([], Raise (ThrowForeign f))
  | Fulfilled response =>
      ([EvClearTimeout],
       if negb (ok response)
       then
         let responseText :=
           match text response with
           | Fulfilled s => s
           | Rejected _ => []
           end in
         if (status response =? 429)%Z
         then
           let retryAfter := headers_get response (lit "Retry-After") in
           throw (RateLimitError
                    (lit "Rate limit exceeded. Please wait before making more requests.")
                    (retryAfter_of retryAfter))
         else
           throw_ApiError (errorMessage_of (status response) responseText)
                          (status response) responseText
       else
         match json response with
         | Fulfilled v => Done v
         | Rejected f => Raise (ThrowForeign f)
         end)
  end.

(** The [catch] clause: what it throws for the value it caught. *)
Definition request_catch (self : EmotionAnalyzer) (error : Thrown)
  : EmotionAnalyzerError :=
  match error with
  | ThrowLib e => e
  | ThrowForeign (FError e) =>
      if jsstring_eqb (err_name e) (lit "AbortError")
      then new_TimeoutError (timeout self)
      else if err_isTypeError e
      then NetworkError
             (lit "Failed to connect to the API. Please check your network connection.")
             (Some e)
      else NetworkError (err_message e) (Some e)
  | ThrowForeign (FValue _) =>
      NetworkError (lit "An unexpected error occurred") None
  end.

Definition request {T : Type} (self : EmotionAnalyzer) (fetch : Fetch T)
    (endpoint : jsstring) (body : Payload) : list Event * Outcome T :=
  let url := baseUrl self ++ endpoint in
  let init := mkRequest url (lit "POST")
                [(lit "Content-Type", lit "application/json")] body in
  let '(events, completion) := request_try (fetch init) in
  match completion with
  | Done v => (EvSetTimeout (timeout self) :: EvFetch init :: events, Done v)
  | Raise error =>
      (EvSetTimeout (timeout self) :: EvFetch init :: events ++ [EvClearTimeout],
       throw (request_catch self error))
  end.

(** ** The public methods *)

(** An async function that throws before its first [await] has touched
    nothing. *)
Definition and_then {A B : Type} (x : Outcome A)
    (k : A -> list Event * Outcome B) : list Event * Outcome B :=
  match x with
  | Done a => k a
  | Raise t => ([], Raise t)
  end.

Definition analyze (self : EmotionAnalyzer) (fetch : Fetch ApiAnalyzeResponse.t)
    (text : JsValue) : list Event * Outcome EmotionResult.t :=
  and_then (validateText text) (fun _ =>
  and_then (String_trim text) (fun trimmed =>
  let '(events, completion) :=
    request self fetch (lit "/api/v1/analyze") (TextPayload trimmed) in
  (events, response <- completion ;; Done (transformResponse response)))).

(** [texts.map(t => t.trim())]: a hole stays a hole. *)
Fixpoint map_trim (slots : list (option JsValue))
  : Outcome (list (option jsstring)) :=
  match slots with
  | [] => Done []
  | None :: r =>
      rest <- map_trim r ;;
      Done (None :: rest)
  | Some t :: r =>
      s <- String_trim t ;;
      rest <- map_trim r ;;
      Done (Some s :: rest)
  end.

Definition Array_map_trim (texts : JsValue)
  : Outcome (list (option jsstring)) :=
  match array_slots texts with
  | Some slots => map_trim slots
  | None => Raise (ThrowForeign (FError TypeError_no_trim))
  end.

Definition analyzeBatch (self : EmotionAnalyzer)
    (fetch : Fetch ApiBatchResponse.t) (texts : JsValue)
  : list Event * Outcome BatchEmotionResult.t :=
  and_then (validateBatchTexts texts) (fun _ =>
  and_then (Array_map_trim texts) (fun trimmed =>
  let '(events, completion) :=
    request self fetch (lit "/api/v1/analyze/batch") (TextsPayload trimmed) in
  (events,
   response <- completion ;;
   Done (BatchEmotionResult.mk
           (List.map transformResponse (ApiBatchResponse.results response))
           (ApiBatchResponse.count response))))).

End Client.

Import Client.

Unset Implicit Arguments.

(* ================================================================== *)
(** * Vocabulary of the properties                                    *)
(* ================================================================== *)

(** A string that is empty or starts with a code unit that is not white
    space. *)
Definition no_leading_space (s : jsstring) : Prop :=
  match s with
  | [] => True
  | c :: _ => isWhiteSpace c = false
  end.

(** The word count in the words of the specification: the number of
    non-empty tokens after splitting the trimmed text on runs of white
    space. *)
Definition word_count (s : jsstring) : nat :=
  length (filter (fun token => negb (length token =? 0)) (split_ws (trim s))).

(** The number of positions where a word starts: a code unit that is not
    white space, at the start of the text or after white space. *)
Fixpoint count_word_starts (after_space : bool) (s : jsstring) : nat :=
  match s with
  | [] => 0
  | c :: r =>
      if isWhiteSpace c then count_word_starts true r
      else (if after_space then 1 else 0) + count_word_starts false r
  end.

(** The last code unit is a slash. *)
Definition ends_with_slash (s : jsstring) : bool :=
  match rev s with
  | 47%N :: _ => true
  | _ => false
  end.

(** The request that [request] hands to [fetch]. *)
Definition init_of (self : EmotionAnalyzer) (endpoint : jsstring)
    (body : Payload) : Request :=
  mkRequest (baseUrl self ++ endpoint) (lit "POST")
    [(lit "Content-Type", lit "application/json")] body.

(** The abort signal: an [Error] whose name is AbortError. *)
Definition is_abort (t : Thrown) : bool :=
  match t with
  | ThrowForeign (FError e) => jsstring_eqb (err_name e) (lit "AbortError")
  | _ => false
  end.

(** The thrown value itself when it is an [Error]. *)
Definition cause_of (t : Thrown) : option JsError :=
  match t with
  | ThrowForeign (FError e) => Some e
  | _ => None
  end.

(** The value of the property [k] of a parsed body; [undefined] when the
    body has no such property. *)
Definition field (v : JsValue) (k : jsstring) : JsValue :=
  match v with
  | VObject props =>
      match get_prop props k with
      | Some x => x
      | None => VUndefined
      end
  | _ => VUndefined
  end.

(** A member of a parsed body that is absent or a string. *)
Definition string_or_absent (x : JsValue) : Prop :=
  x = VUndefined \/ exists s, x = VString s.

(** A parsed body of the shape that [ApiErrorResponse] declares: each of
    detail, message and error is absent or a string. *)
Definition declared_shape (v : JsValue) : Prop :=
  string_or_absent (field v (lit "detail")) /\
  string_or_absent (field v (lit "message")) /\
  string_or_absent (field v (lit "error")).

(** The string that a member is; the empty string for an absent one. *)
Definition member_string (x : JsValue) : jsstring :=
  match x with
  | VString s => s
  | _ => []
  end.

(** The first candidate that is not empty, else the fallback. *)
Fixpoint first_nonempty (candidates : list jsstring) (fallback : jsstring)
  : jsstring :=
  match candidates with
  | [] => fallback
  | [] :: r => first_nonempty r fallback
  | c :: _ => c
  end.

(** The first candidate that is truthy, else the fallback. *)
Fixpoint first_truthy (candidates : list JsValue) (fallback : JsValue)
  : JsValue :=
  match candidates with
  | [] => fallback
  | c :: r => if ToBoolean c then c else first_truthy r fallback
  end.

(** The body text that [request] reads from an error response: the empty
    string when reading fails. *)
Definition responseText_of {T : Type} (response : Response T) : jsstring :=
  match text response with
  | Fulfilled s => s
  | Rejected _ => []
  end.

(** Every code unit of the text is white space. *)
Definition blank (s : jsstring) : bool := forallb isWhiteSpace s.

(** A text within the limits of the client: not empty, with no white
    space at either end, of at most 100 words. *)
Definition within_limits (s : jsstring) : Prop :=
  s <> [] /\ trim s = s /\ word_count s <= 100.

(** Do the numbers below [n] print as their decimal numerals? *)
Definition numerals_agree (n : nat) : bool :=
  forallb (fun k => jsstring_eqb (Number_toString (of_Z (Z.of_nat k)))
                                 (show_nat k))
          (seq 0 n).

(** A position of a validated batch: a hole, which [forEach] skips, or a
    value that passes [validateText]. *)
Definition slot_valid (slot : option JsValue) : Prop :=
  match slot with
  | Some w => validateText w = Done tt
  | None => True
  end.

(** A position of a payload: a hole, or a text within the limits. *)
Definition slot_within_limits (slot : option jsstring) : Prop :=
  match slot with
  | Some t => within_limits t
  | None => True
  end.

(** The number of calls of [fetch] among the events. *)
Fixpoint count_fetches (events : list Event) : nat :=
  match events with
  | [] => 0
  | EvFetch _ :: r => S (count_fetches r)
  | _ :: r => count_fetches r
  end.

(** The transport threw [f] inside the [try] block of [request]: [fetch]
    rejected with it, or the response had a 2xx status and reading its
    body with [json()] rejected with it. *)
Definition transport_threw {T : Type} (fetch : Fetch T) (init : Request)
    (f : Foreign) : Prop :=
  fetch init = Rejected f \/
  exists response,
    fetch init = Fulfilled response /\ ok response = true /\
    json response = Rejected f.

(** The three messages of [validateText]. *)
Definition text_required : EmotionAnalyzerError :=
  ValidationError (lit "Text is required and must be a string")
                  (Some (lit "text")).

Definition text_empty : EmotionAnalyzerError :=
  ValidationError (lit "Text cannot be empty") (Some (lit "text")).

Definition text_too_long (words : nat) : EmotionAnalyzerError :=
  ValidationError
    (lit "Text exceeds maximum word limit. Got " ++ show_nat words
     ++ lit " words, maximum is 100")
    (Some (lit "text")).

(** ** Transports and responses of the examples *)

(** A transport that is cancelled by the timer. *)
Definition aborting_fetch (T : Type) : Fetch T :=
  fun _ => Rejected (FError (mkJsError (lit "AbortError")
                               (lit "This operation was aborted") false)).

(** A transport that answers every request with the given status, body
    text and Retry-After header. *)
Definition answering_fetch (T : Type) (st : Z) (retryAfter : option jsstring)
    (raw : jsstring) : Fetch T :=
  fun _ =>
    Fulfilled
      (mkResponse st
         (fun header =>
            if jsstring_eqb header (lit "Retry-After") then retryAfter else None)
         (Fulfilled raw)
         (Rejected (FError (mkJsError (lit "SyntaxError")
                              (lit "Unexpected token") false)))).

(** A transport whose response has the given status and a body that
    cannot be read. *)
Definition unreadable_fetch (T : Type) (st : Z) : Fetch T :=
  fun _ =>
    Fulfilled
      (mkResponse st (fun _ => None)
         (Rejected (FError (mkJsError (lit "TypeError")
                              (lit "body stream already read") true)))
         (Rejected (FError (mkJsError (lit "TypeError")
                              (lit "body stream already read") true)))).

(** A transport that answers 200 with the given wire object. *)
Definition succeeding_fetch {T : Type} (w : T) : Fetch T :=
  fun _ => Fulfilled (mkResponse 200 (fun _ => None) (Fulfilled []) (Fulfilled w)).

Definition joy_response : ApiAnalyzeResponse.t :=
  ApiAnalyzeResponse.mk (lit "joy") (Dec false 9 (-1))
    [mkEmotionScore (lit "joy") (Dec false 9 (-1))].

Definition two_results : ApiBatchResponse.t :=
  ApiBatchResponse.mk [joy_response; joy_response] 2.

(* ================================================================== *)
(** * Strings                                                         *)
(* ================================================================== *)

Lemma jsstring_eqb_eq (a b : jsstring) : jsstring_eqb a b = true <-> a = b.
Proof.
  unfold jsstring_eqb. destruct (list_eq_dec N.eq_dec a b); split; congruence.
Qed.

(** ** The platform functions on examples *)

Example trim_example : trim (lit "  a  b ") = lit "a  b".
Proof. reflexivity. Qed.

Example split_ws_example :
  split_ws (lit " a  b ") = [[]; lit "a"; lit "b"; []].
Proof. reflexivity. Qed.

Example split_ws_empty : split_ws [] = [[]].
Proof. reflexivity. Qed.

Example parseInt10_examples :
  parseInt10 (lit "5") = Dec false 5 0 /\
  parseInt10 (lit "  -12abc") = Dec true 12 0 /\
  parseInt10 (lit "+7.9") = Dec false 7 0 /\
  parseInt10 (lit "abc") = NaN /\
  parseInt10 [] = NaN.
Proof. repeat split. Qed.

Example JSON_parse_object :
  JSON_parse (json_lit " { 'a' : [1, -2.50e3, true, null, {}], 'b': 'x\u0041' } ")
  = Some (VObject
            [(lit "a", VArray [VNumber (Dec false 1 0);
                               VNumber (Dec true 250 1);
                               VBool true; VNull; VObject []]);
             (lit "b", VString (lit "xA"))]).
Proof. reflexivity. Qed.

Example JSON_parse_duplicate_key :
  JSON_parse (json_lit "{'a':1,'b':2,'a':3}")
  = Some (VObject [(lit "a", VNumber (Dec false 3 0));
                   (lit "b", VNumber (Dec false 2 0))]).
Proof. reflexivity. Qed.

Example JSON_parse_rejects :
  JSON_parse [] = None /\
  JSON_parse (json_lit "[1,]") = None /\
  JSON_parse (json_lit "{'a':1,}") = None /\
  JSON_parse (json_lit "01") = None /\
  JSON_parse (json_lit "1.") = None /\
  JSON_parse (json_lit "tru") = None /\
  JSON_parse (json_lit "1 2") = None /\
  JSON_parse (json_lit "<html>Bad Gateway</html>") = None.
Proof. repeat split. Qed.

Example ToBoolean_examples :
  ToBoolean (VString []) = false /\
  ToBoolean (VString (lit "0")) = true /\
  ToBoolean (VNumber (Dec false 0 0)) = false /\
  ToBoolean (VNumber NaN) = false /\
  ToBoolean (VArray []) = true /\
  ToBoolean VNull = false.
Proof. repeat split. Qed.

(** ** Trimming *)

Lemma trimStart_no_leading_space (s : jsstring) :
  no_leading_space (trimStart s).
Proof.
  induction s as [|c r IH]; simpl; [exact I|].
  destruct (isWhiteSpace c) eqn:E; [exact IH | exact E].
Qed.

Lemma trimStart_fixed (s : jsstring) :
  no_leading_space s -> trimStart s = s.
Proof.
  destruct s as [|c r]; simpl; [reflexivity|]. now intros ->.
Qed.

Lemma trimStart_idempotent (s : jsstring) :
  trimStart (trimStart s) = trimStart s.
Proof.
  apply trimStart_fixed, trimStart_no_leading_space.
Qed.

Lemma trimEnd_idempotent (s : jsstring) : trimEnd (trimEnd s) = trimEnd s.
Proof.
  unfold trimEnd. now rewrite rev_involutive, trimStart_idempotent.
Qed.

(** Trimming the left of a string that ends with a code unit that is not
    white space keeps that end. *)
Lemma trimStart_keeps_last (l : jsstring) (c : N) :
  isWhiteSpace c = false -> exists l', trimStart (l ++ [c]) = l' ++ [c].
Proof.
  intros Hc. induction l as [|x r IH]; simpl.
  - rewrite Hc. now exists [].
  - destruct (isWhiteSpace x); [exact IH|]. now exists (x :: r).
Qed.

Lemma trimEnd_no_leading_space (s : jsstring) :
  no_leading_space s -> no_leading_space (trimEnd s).
Proof.
  destruct s as [|c r]; simpl; [trivial|]. intros Hc.
  unfold trimEnd. simpl.
  destruct (trimStart_keeps_last (rev r) c Hc) as [l' ->].
  rewrite rev_app_distr. simpl. exact Hc.
Qed.

(** [trim] is idempotent: trimming the trimmed text changes nothing. *)
Lemma trim_idempotent (s : jsstring) : trim (trim s) = trim s.
Proof.
  unfold trim.
  rewrite (trimStart_fixed (trimEnd (trimStart s))).
  - apply trimEnd_idempotent.
  - apply trimEnd_no_leading_space, trimStart_no_leading_space.
Qed.

(** ** Words *)

Lemma countWords_word_count (s : jsstring) : countWords s = word_count s.
Proof.
  unfold countWords, word_count. f_equal. apply filter_ext.
  intros token. now destruct token.
Qed.

(** The count that [validateText] compares with the limit is the word
    count of the text. *)
Lemma countWords_trim (s : jsstring) : countWords (trim s) = word_count s.
Proof.
  unfold countWords. rewrite trim_idempotent.
  fold (countWords s). apply countWords_word_count.
Qed.

Lemma show_nat_100 : show_nat MAX_WORDS_PER_TEXT = lit "100".
Proof. reflexivity. Qed.

(** The word count, characterised without [split]: a word starts at every
    code unit that is not white space and follows white space or the
    start of the text. *)
Lemma split_ws_from_count (s : jsstring) :
  forall (cur : jsstring) (insep : bool),
    (insep = true -> cur = []) ->
    length (filter (fun token => negb (length token =? 0))
              (split_ws_from cur insep s))
    = match cur with
      | [] => count_word_starts true s
      | _ :: _ => 1 + count_word_starts false s
      end.
Proof.
  induction s as [|c r IH]; intros cur insep Hinv.
  - destruct cur as [|x cur]; [reflexivity|].
    cbn [split_ws_from filter]. rewrite length_rev. reflexivity.
  - cbn [split_ws_from count_word_starts].
    destruct (isWhiteSpace c).
    + destruct insep.
      * rewrite (Hinv eq_refl). apply (IH [] true). reflexivity.
      * cbn [filter]. rewrite length_rev.
        destruct cur as [|x cur]; cbn [length Nat.eqb negb].
        -- apply (IH [] true). reflexivity.
        -- rewrite (IH [] true) by reflexivity. reflexivity.
    + rewrite (IH (c :: cur) false) by discriminate.
      destruct cur; reflexivity.
Qed.

Lemma count_word_starts_trimStart (s : jsstring) :
  count_word_starts true (trimStart s) = count_word_starts true s.
Proof.
  induction s as [|c r IH]; [reflexivity|].
  cbn [trimStart count_word_starts].
  destruct (isWhiteSpace c) eqn:E; [exact IH|].
  cbn [count_word_starts]. now rewrite E.
Qed.

Lemma trimStart_decompose (s : jsstring) :
  exists w, s = w ++ trimStart s /\ Forall (fun c => isWhiteSpace c = true) w.
Proof.
  induction s as [|c r [w [Hw Hall]]]; [now exists []|].
  cbn [trimStart]. destruct (isWhiteSpace c) eqn:E.
  - exists (c :: w). split; [simpl; now f_equal | now constructor].
  - now exists [].
Qed.

Lemma trimEnd_decompose (s : jsstring) :
  exists w, s = trimEnd s ++ w /\ Forall (fun c => isWhiteSpace c = true) w.
Proof.
  destruct (trimStart_decompose (rev s)) as [w [Hw Hall]].
  exists (rev w). split; [|now apply Forall_rev].
  unfold trimEnd. rewrite <- rev_app_distr, <- Hw. now rewrite rev_involutive.
Qed.

Lemma count_word_starts_spaces (after_space : bool) (s w : jsstring) :
  Forall (fun c => isWhiteSpace c = true) w ->
  count_word_starts after_space (s ++ w) = count_word_starts after_space s.
Proof.
  intros Hall. revert after_space.
  induction s as [|c r IH]; intros after_space.
  - simpl. revert after_space.
    induction Hall as [|c w Hc _ IHw]; intros after_space; [reflexivity|].
    cbn [count_word_starts]. rewrite Hc. apply IHw.
  - cbn [app count_word_starts]. destruct (isWhiteSpace c); now rewrite IH.
Qed.

Lemma count_word_starts_trimEnd (after_space : bool) (s : jsstring) :
  count_word_starts after_space (trimEnd s) = count_word_starts after_space s.
Proof.
  destruct (trimEnd_decompose s) as [w [Hw Hall]].
  rewrite Hw at 2. now rewrite count_word_starts_spaces.
Qed.

(** The word count is the number of word starts of the text. *)
Lemma word_count_word_starts (s : jsstring) :
  word_count s = count_word_starts true s.
Proof.
  unfold word_count, split_ws.
  rewrite (split_ws_from_count (trim s) [] false) by discriminate.
  unfold trim.
  now rewrite count_word_starts_trimEnd, count_word_starts_trimStart.
Qed.

(** ** parseInt on decimal numerals *)

Ltac digit_case IH v :=
  cbn [uint_digits digits_prefix Nat.of_uint_acc];
  match goal with
  | |- context [digit_value ?c] => change (digit_value c) with (Some v)
  end;
  cbv iota beta; rewrite IH by (right; reflexivity);
  do 3 f_equal; rewrite Nat.tail_mul_spec, N2Nat.inj_add, N2Nat.inj_mul;
  simpl; lia.

Lemma digits_prefix_uint (d : Decimal.uint) :
  forall (acc : N) (seen : bool),
    d <> Decimal.Nil \/ seen = true ->
    digits_prefix acc seen (uint_digits d)
    = Some (N.of_nat (Nat.of_uint_acc d (N.to_nat acc))).
Proof.
  induction d as [|d IH|d IH|d IH|d IH|d IH|d IH|d IH|d IH|d IH|d IH];
    intros acc seen H.
  - destruct H as [H| ->]; [congruence|]. simpl. now rewrite N2Nat.id.
  - digit_case IH 0%N.
  - digit_case IH 1%N.
  - digit_case IH 2%N.
  - digit_case IH 3%N.
  - digit_case IH 4%N.
  - digit_case IH 5%N.
  - digit_case IH 6%N.
  - digit_case IH 7%N.
  - digit_case IH 8%N.
  - digit_case IH 9%N.
Qed.

Lemma to_uint_not_Nil (n : nat) : Nat.to_uint n <> Decimal.Nil.
Proof.
  destruct n as [|n]; [discriminate|].
  intros H. apply (f_equal Nat.of_uint) in H.
  rewrite DecimalNat.Unsigned.of_to in H. discriminate.
Qed.

(** A numeral starts with a digit: nothing to trim, no sign. *)
Lemma uint_digits_head (d : Decimal.uint) :
  d <> Decimal.Nil ->
  exists c r,
    uint_digits d = c :: r /\ isWhiteSpace c = false /\
    c <> 45%N /\ c <> 43%N.
Proof.
  destruct d; [congruence|..]; intros _; eexists _, _;
    (split; [reflexivity|]); repeat split; discriminate.
Qed.

Lemma round_integer_exact (neg : bool) (m : N) :
  (m <= 2 ^ 53)%N -> round_integer neg m = Dec neg m 0.
Proof.
  intros H. unfold round_integer.
  now rewrite (proj2 (N.leb_le m (2 ^ 53)) H).
Qed.

Lemma parseInt10_unsigned (c : N) (r : jsstring) :
  isWhiteSpace c = false -> c <> 45%N -> c <> 43%N ->
  parseInt10 (c :: r)
  = match digits_prefix 0 false (c :: r) with
    | Some m => round_integer false m
    | None => NaN
    end.
Proof.
  intros Hw Hm Hp. unfold parseInt10. cbn [trimStart]. rewrite Hw.
  destruct c as [|p]; [reflexivity|].
  do 6 (destruct p as [p|p|]; try reflexivity); congruence.
Qed.

(** [parseInt] reads back the decimal rendering of a natural number
    that is a binary64 value. *)
Lemma parseInt10_show_nat (n : nat) :
  (N.of_nat n <= 2 ^ 53)%N ->
  parseInt10 (show_nat n) = Dec false (N.of_nat n) 0.
Proof.
  intros Hn. unfold show_nat.
  destruct (uint_digits_head _ (to_uint_not_Nil n)) as [c [r [E [Hw [Hm Hp]]]]].
  rewrite E, parseInt10_unsigned by assumption. rewrite <- E.
  rewrite digits_prefix_uint by (left; apply to_uint_not_Nil).
  change (Nat.of_uint_acc (Nat.to_uint n) (N.to_nat 0)) with
    (Nat.of_uint (Nat.to_uint n)).
  rewrite DecimalNat.Unsigned.of_to. now apply round_integer_exact.
Qed.


(* ================================================================== *)
(** * Validation                                                      *)
(* ================================================================== *)

Lemma validateText_string (text : JsValue) :
  validateText text = Done tt -> exists s, text = VString s.
Proof.
  unfold validateText.
  destruct text; cbn [typeof_is_string negb];
    rewrite ?orb_true_r; try discriminate.
  eauto.
Qed.

(** C4.  [validateText] passes exactly on the strings whose trimmed text
    is not empty and has at most 100 words; on every other value
    (undefined, null, a value that is not a string, a string that trims
    to empty, a text of more than 100 words) it fails with a
    [ValidationError] on the field text, and for a text of more than 100
    words the message gives the word count and the maximum 100. *)
Theorem validateText_spec (text : JsValue) :
  (validateText text = Done tt <->
   exists s, text = VString s /\ trim s <> [] /\ word_count s <= 100) /\
  (validateText text <> Done tt ->
   exists m, validateText text
             = Raise (ThrowLib (ValidationError m (Some (lit "text"))))) /\
  (forall s,
     text = VString s -> trim s <> [] -> 100 < word_count s ->
     validateText text
     = Raise (ThrowLib
                (ValidationError
                   (lit "Text exceeds maximum word limit. Got "
                    ++ show_nat (word_count s)
                    ++ lit " words, maximum is 100")
                   (Some (lit "text"))))).
Proof.
  assert (Hempty : validateText (VString [])
                   = throw (ValidationError
                              (lit "Text is required and must be a string")
                              (Some (lit "text")))) by reflexivity.
  assert (Hstr : forall s,
            s <> [] ->
            validateText (VString s)
            = if length (trim s) =? 0
              then throw (ValidationError (lit "Text cannot be empty")
                                          (Some (lit "text")))
              else if 100 <? word_count s
              then throw (ValidationError
                            (lit "Text exceeds maximum word limit. Got "
                             ++ show_nat (word_count s)
                             ++ lit " words, maximum is 100")
                            (Some (lit "text")))
              else Done tt).
  { intros s Hs. unfold validateText. cbn [ToBoolean typeof_is_string negb].
    rewrite orb_false_r, negb_involutive.
    destruct s as [|c r]; [congruence|].
    cbn [length Nat.eqb String_trim bind].
    rewrite countWords_trim. reflexivity. }
  assert (Hother : forall v,
            typeof_is_string v = false ->
            validateText v
            = throw (ValidationError (lit "Text is required and must be a string")
                                     (Some (lit "text")))).
  { intros v Hv. unfold validateText. rewrite Hv. cbn [negb].
    now rewrite orb_true_r. }
  assert (Htrim : forall s, trim s <> [] -> s <> []).
  { intros s Ht ->. apply Ht. reflexivity. }
  split; [|split].
  - split.
    + intros H. destruct (validateText_string _ H) as [s ->].
      exists s. split; [reflexivity|].
      destruct s as [|c0 r0]; [rewrite Hempty in H; discriminate|].
      rewrite Hstr in H by discriminate.
      destruct (trim (c0 :: r0)) as [|c r] eqn:Et; [discriminate|].
      cbn [length Nat.eqb] in H.
      destruct (Nat.ltb_spec 100 (word_count (c0 :: r0))); [discriminate|].
      split; [discriminate | assumption].
    + intros [s [-> [Ht Hw]]]. rewrite Hstr by auto.
      destruct (trim s) as [|c r] eqn:Et; [congruence|].
      cbn [length Nat.eqb].
      destruct (Nat.ltb_spec 100 (word_count s)); [lia | reflexivity].
  - intros Hfail.
    destruct text as [| |b|n|s|elems|slots|props];
      try (rewrite Hother by reflexivity; eexists; reflexivity).
    destruct s as [|c0 r0]; [rewrite Hempty; eexists; reflexivity|].
    rewrite Hstr in * by discriminate.
    destruct (length (trim (c0 :: r0)) =? 0); [eexists; reflexivity|].
    destruct (100 <? word_count (c0 :: r0)); [eexists; reflexivity | congruence].
  - intros s -> Ht Hw. rewrite Hstr by auto.
    destruct (trim s) as [|c r] eqn:Et; [congruence|].
    cbn [length Nat.eqb].
    destruct (Nat.ltb_spec 100 (word_count s)); [reflexivity | lia].
Qed.

(** C4 at a text of two words with white space around them: validation
    passes. *)
Lemma validateText_spec_witness :
  validateText (VString (lit "  hello   world ")) = Done tt.
Proof.
  apply (proj2 (proj1 (validateText_spec (VString (lit "  hello   world "))))).
  exists (lit "  hello   world ").
  split; [reflexivity|]. split; [discriminate|].
  apply Nat.leb_le. reflexivity.
Defined.

(** The checks of [validateText] and of the callback of
    [validateBatchTexts] fail on the same values. *)
Lemma validateBatchElement_iff (text : JsValue) (index : nat) :
  validateBatchElement text index = Done tt <-> validateText text = Done tt.
Proof.
  unfold validateBatchElement, validateText, throw.
  destruct (negb (ToBoolean text) || negb (typeof_is_string text));
    [split; discriminate|].
  destruct (String_trim text) as [trimmed|t]; simpl; [|split; discriminate].
  destruct (length trimmed =? 0); [split; discriminate|].
  destruct (MAX_WORDS_PER_TEXT <? countWords trimmed);
    [split; discriminate | tauto].
Qed.

Lemma String_trim_after_check (text : JsValue) :
  negb (ToBoolean text) || negb (typeof_is_string text) = false ->
  exists s, text = VString s.
Proof.
  destruct text; cbn [typeof_is_string negb];
    rewrite ?orb_true_r; try discriminate.
  eauto.
Qed.

(** Every failure of the callback is a [ValidationError] on the field
    texts whose message starts with the index of the element. *)
Lemma validateBatchElement_raises (text : JsValue) (index : nat) (t : Thrown) :
  validateBatchElement text index = Raise t ->
  exists rest,
    t = ThrowLib (ValidationError
                    (lit "Text at index " ++ show_nat index ++ rest)
                    (Some (lit "texts"))).
Proof.
  unfold validateBatchElement, throw.
  destruct (negb (ToBoolean text) || negb (typeof_is_string text)) eqn:Hc.
  - intros H; inversion H. eexists. reflexivity.
  - destruct (String_trim_after_check _ Hc) as [s ->]. simpl.
    destruct (length (trim s) =? 0).
    + intros H; inversion H. eexists. reflexivity.
    + destruct (MAX_WORDS_PER_TEXT <? countWords (trim s)); [|discriminate].
      intros H; inversion H. eexists. reflexivity.
Qed.


(** [validateBatchTexts] on a dense array. *)
Lemma validateBatchTexts_dense (elems : list JsValue) :
  validateBatchTexts (VArray elems)
  = if length elems =? 0
    then throw (ValidationError (lit "At least one text is required")
                                (Some (lit "texts")))
    else if MAX_BATCH_SIZE <? length elems
    then throw (ValidationError
                  (lit "Batch size exceeds maximum limit. Got "
                   ++ show_nat (length elems)
                   ++ lit " texts, maximum is "
                   ++ show_nat MAX_BATCH_SIZE)
                  (Some (lit "texts")))
    else forEach_from validateBatchElement (List.map Some elems) 0.
Proof.
  unfold validateBatchTexts. cbn [array_slots]. now rewrite length_map.
Qed.



Lemma validateBatchTexts_raises (texts : JsValue) (t : Thrown) :
  validateBatchTexts texts = Raise t ->
  exists m, t = ThrowLib (ValidationError m (Some (lit "texts"))).
Proof.
  unfold validateBatchTexts, throw.
  destruct (array_slots texts) as [slots|];
    [|intros H; inversion H; eexists; reflexivity].
  destruct (length slots =? 0);
    [intros H; inversion H; eexists; reflexivity|].
  destruct (MAX_BATCH_SIZE <? length slots);
    [intros H; inversion H; eexists; reflexivity|].
  generalize 0 as index.
  induction slots as [|[x|] r IH]; intros index; simpl.
  - discriminate.
  - destruct (validateBatchElement x index) as [[]|t'] eqn:Hx; simpl.
    + apply IH.
    + intros H; inversion H; subst.
      destruct (validateBatchElement_raises _ _ _ Hx) as [rest ->].
      eexists. reflexivity.
  - apply IH.
Qed.



(* ================================================================== *)
(** * The request pipeline                                            *)
(* ================================================================== *)

Lemma request_unfold {T : Type} (self : EmotionAnalyzer) (fetch : Fetch T)
    (endpoint : jsstring) (body : Payload) :
  snd (request self fetch endpoint body)
  = match snd (request_try (fetch (init_of self endpoint body))) with
    | Done v => Done v
    | Raise error => throw (request_catch self error)
    end.
Proof.
  unfold request, init_of.
  destruct (request_try _) as [events [v|error]]; reflexivity.
Qed.

(** What [request] does to the platform: it sets the timer to the stored
    timeout, calls [fetch] once, on the URL made of the stored base URL
    and the endpoint, and clears the timer. *)
Lemma request_trace {T : Type} (self : EmotionAnalyzer) (fetch : Fetch T)
    (endpoint : jsstring) (body : Payload) :
  exists rest,
    fst (request self fetch endpoint body)
    = EvSetTimeout (timeout self) :: EvFetch (init_of self endpoint body) :: rest /\
    rest <> [] /\
    forall ev, In ev rest -> ev = EvClearTimeout.
Proof.
  unfold request, init_of, request_try.
  destruct (fetch _) as [response|f]; cbn beta iota.
  - match goal with
    | |- context [match ?c with Done _ => _ | Raise _ => _ end] => destruct c
    end; cbn [fst app].
    + exists [EvClearTimeout]. split; [reflexivity|]. split; [discriminate|].
      intros ev [<-|[]]. reflexivity.
    + exists [EvClearTimeout; EvClearTimeout].
      split; [reflexivity|]. split; [discriminate|].
      intros ev [<-|[<-|[]]]; reflexivity.
  - cbn [fst app]. exists [EvClearTimeout].
    split; [reflexivity|]. split; [discriminate|].
    intros ev [<-|[]]. reflexivity.
Qed.

Lemma request_events {T : Type} (self : EmotionAnalyzer) (fetch : Fetch T)
    (endpoint : jsstring) (body : Payload) (ev : Event) :
  In ev (fst (request self fetch endpoint body)) ->
  ev = EvSetTimeout (timeout self) \/
  ev = EvClearTimeout \/
  ev = EvFetch (init_of self endpoint body).
Proof.
  destruct (request_trace self fetch endpoint body) as [rest [-> [_ Hrest]]].
  intros [H|[H|H]]; auto.
Qed.

(** C6.  Whatever the [try] block of [request] throws, the call fails
    with an error of the library: an error of the library is passed on
    as it is, the abort signal becomes a [TimeoutError] that carries the
    configured timeout, and any other value becomes a [NetworkError]
    whose cause is that value when it is an [Error]. *)
Theorem request_reclassifies_failures {T : Type}
    (self : EmotionAnalyzer) (fetch : Fetch T) (endpoint : jsstring)
    (body : Payload) (thrown : Thrown) :
  snd (request_try (fetch (init_of self endpoint body))) = Raise thrown ->
  (forall e, thrown = ThrowLib e ->
     snd (request self fetch endpoint body) = Raise (ThrowLib e)) /\
  (is_abort thrown = true ->
     exists m, snd (request self fetch endpoint body)
               = Raise (ThrowLib (TimeoutError m (timeout self)))) /\
  (forall f, thrown = ThrowForeign f -> is_abort thrown = false ->
     exists m, snd (request self fetch endpoint body)
               = Raise (ThrowLib (NetworkError m (cause_of thrown)))).
Proof.
  intros Htry. rewrite request_unfold, Htry. unfold throw.
  split; [|split].
  - intros e ->. reflexivity.
  - destruct thrown as [e|[e|v]]; simpl; try discriminate.
    intros ->. eexists. reflexivity.
  - intros f -> Hab. destruct f as [e|v]; simpl in *.
    + rewrite Hab. destruct (err_isTypeError e); eexists; reflexivity.
    + eexists. reflexivity.
Qed.

(** C6 at a cancelled request of a client configured with 50 ms. *)
Lemma request_reclassifies_failures_witness :
  exists m,
    snd (request (constructor (mkOptions None (Some 50%Z)))
           (aborting_fetch ApiAnalyzeResponse.t)
           (lit "/api/v1/analyze") (TextPayload (lit "hi")))
    = Raise (ThrowLib (TimeoutError m 50%Z)).
Proof.
  refine (proj1 (proj2 (request_reclassifies_failures
            (constructor (mkOptions None (Some 50%Z)))
            (aborting_fetch ApiAnalyzeResponse.t)
            (lit "/api/v1/analyze") (TextPayload (lit "hi"))
            (ThrowForeign (FError (mkJsError (lit "AbortError")
                                     (lit "This operation was aborted") false)))
            _)) _); reflexivity.
Defined.

(** [request] never fails with a value that is not of the library. *)
Lemma request_fails_with_library_error {T : Type}
    (self : EmotionAnalyzer) (fetch : Fetch T) (endpoint : jsstring)
    (body : Payload) (t : Thrown) :
  snd (request self fetch endpoint body) = Raise t ->
  exists e, t = ThrowLib e /\ field_of e = None.
Proof.
  rewrite request_unfold.
  destruct (snd (request_try (fetch _))) as [v|error] eqn:E; [discriminate|].
  unfold throw. intros H; inversion H; subst t.
  exists (request_catch self error). split; [reflexivity|].
  destruct error as [e|[e|v]]; simpl.
  - unfold request_try in E.
    destruct (fetch _) as [response|f]; simpl in E; [|discriminate].
    destruct (negb (ok response)); simpl in E.
    + destruct (status response =? 429)%Z;
        [unfold throw in E; inversion E; reflexivity|].
      unfold throw_ApiError, throw in E.
      destruct (Error_message _); inversion E; reflexivity.
    + destruct (json response); discriminate.
  - destruct (jsstring_eqb _ _); [|destruct (err_isTypeError e)]; reflexivity.
  - reflexivity.
Qed.

(** ** Error responses *)

Lemma errorMessage_of_first_truthy (st : Z) (raw : jsstring) :
  errorMessage_of st raw
  = match JSON_parse raw with
    | None => default_errorMessage st
    | Some v =>
        first_truthy [field v (lit "detail"); field v (lit "message");
                      field v (lit "error")]
                     (default_errorMessage st)
    end.
Proof.
  unfold errorMessage_of. destruct (JSON_parse raw) as [v|]; [|reflexivity].
  destruct v; try reflexivity.
  unfold Get, field, first_truthy, js_or.
  repeat match goal with
         | |- context [get_prop ?p ?k] => destruct (get_prop p k)
         end; reflexivity.
Qed.

Lemma first_truthy_declared_shape (v : JsValue) (fallback : jsstring) :
  declared_shape v ->
  first_truthy
    [field v (lit "detail"); field v (lit "message"); field v (lit "error")]
    (VString fallback)
  = VString (first_nonempty
               [member_string (field v (lit "detail"));
                member_string (field v (lit "message"));
                member_string (field v (lit "error"))]
               fallback).
Proof.
  intros [Hd [Hm He]]. unfold string_or_absent in *.
  destruct Hd as [->|[[|c1 s1] ->]], Hm as [->|[[|c2 s2] ->]],
           He as [->|[[|c3 s3] ->]]; reflexivity.
Qed.

(** What [request] makes of an error response that is not a 429. *)
Lemma request_error_response {T : Type}
    (self : EmotionAnalyzer) (fetch : Fetch T) (endpoint : jsstring)
    (body : Payload) (response : Response T) :
  fetch (init_of self endpoint body) = Fulfilled response ->
  ok response = false ->
  status response <> 429%Z ->
  snd (request self fetch endpoint body)
  = match Error_message (errorMessage_of (status response)
                           (responseText_of response)) with
    | Some m =>
        throw (ApiError m (status response) (Some (responseText_of response)))
    | None =>
        throw (NetworkError
                 (lit "Failed to connect to the API. Please check your network connection.")
                 (Some TypeError_to_primitive))
    end.
Proof.
  intros Hfetch Hok Hst.
  rewrite request_unfold, Hfetch. unfold request_try. cbn [snd].
  rewrite Hok. cbn [negb].
  destruct (Z.eqb_spec (status response) 429) as [E|_]; [contradiction|].
  unfold responseText_of, throw_ApiError.
  destruct (Error_message _); reflexivity.
Qed.

(** C5, as the code has it.  Take a response whose status is neither in
    200 to 299 nor 429, and whose body does not parse as JSON or parses
    to a value whose members detail, message and error are each absent
    or a string, the shape that [ApiErrorResponse] declares.  The request
    fails with an [ApiError] that carries the status and the body text.
    Its message is the first of detail, message and error that is a
    string that is not empty; it is the generic message when the body
    does not parse or when none of the three is such a string. *)
Theorem request_api_error {T : Type}
    (self : EmotionAnalyzer) (fetch : Fetch T) (endpoint : jsstring)
    (body : Payload) (response : Response T) :
  fetch (init_of self endpoint body) = Fulfilled response ->
  ok response = false ->
  status response <> 429%Z ->
  (JSON_parse (responseText_of response) = None \/
   exists v, JSON_parse (responseText_of response) = Some v /\
             declared_shape v) ->
  exists m,
    snd (request self fetch endpoint body)
    = Raise (ThrowLib (ApiError m (status response)
                         (Some (responseText_of response)))) /\
    (JSON_parse (responseText_of response) = None ->
       m = lit "API request failed with status " ++ Number_toString (of_Z (status response))) /\
    (forall v, JSON_parse (responseText_of response) = Some v ->
       m = first_nonempty
             [member_string (field v (lit "detail"));
              member_string (field v (lit "message"));
              member_string (field v (lit "error"))]
             (lit "API request failed with status "
              ++ Number_toString (of_Z (status response)))) /\
    (forall v s, JSON_parse (responseText_of response) = Some v ->
       field v (lit "detail") = VString s -> s <> [] ->
       m = s).
Proof.
  intros Hfetch Hok Hst Hbody.
  rewrite (request_error_response self fetch endpoint body response
             Hfetch Hok Hst).
  rewrite errorMessage_of_first_truthy.
  destruct Hbody as [Hp|[v [Hp Hshape]]]; rewrite Hp.
  - eexists. split; [reflexivity|]. split; [reflexivity|].
    split; intros; discriminate.
  - unfold default_errorMessage.
    rewrite (first_truthy_declared_shape v _ Hshape). cbn [Error_message ToString].
    eexists. split; [reflexivity|]. split; [discriminate|]. split.
    + intros v' Hv'. inversion Hv'; subst. reflexivity.
    + intros v' s Hv' Hd Hs. inversion Hv'; subst. rewrite Hd.
      destruct s; [congruence | reflexivity].
Qed.

(** C5 at status 500 with a body whose property detail is boom. *)
Lemma request_api_error_witness :
  snd (request (constructor (mkOptions None None))
         (answering_fetch ApiAnalyzeResponse.t 500 None
            (json_lit "{'detail':'boom'}"))
         (lit "/api/v1/analyze") (TextPayload (lit "hi")))
  = Raise (ThrowLib (ApiError (lit "boom") 500
                       (Some (json_lit "{'detail':'boom'}")))).
Proof.
  destruct (request_api_error (constructor (mkOptions None None))
              (answering_fetch ApiAnalyzeResponse.t 500 None
                 (json_lit "{'detail':'boom'}"))
              (lit "/api/v1/analyze") (TextPayload (lit "hi")) _
              eq_refl eq_refl ltac:(discriminate)
              (or_intror
                 (ex_intro _ (VObject [(lit "detail", VString (lit "boom"))])
                    (conj eq_refl
                       (conj (or_intror (ex_intro _ (lit "boom") eq_refl))
                          (conj (or_introl eq_refl) (or_introl eq_refl)))))))
    as [m [Hreq [_ [_ Hm]]]].
  rewrite Hreq.
  rewrite (Hm _ (lit "boom") eq_refl eq_refl ltac:(discriminate)).
  reflexivity.
Defined.

(** C5 as stated fails.  In a body whose only property is detail, with
    the empty string as its value, the property detail is present, and
    the message is the generic one, not the value of detail.  And a body
    whose detail is an object with a property toString has a detail, and
    the request does not fail with an [ApiError] at all: the message has
    no string conversion, the [TypeError] of the conversion is caught and
    reported as a [NetworkError]. *)
Lemma request_api_error_skips_empty_detail :
  JSON_parse (json_lit "{'detail':''}")
  = Some (VObject [(lit "detail", VString [])]) /\
  snd (request (constructor (mkOptions None None))
         (answering_fetch ApiAnalyzeResponse.t 500 None
            (json_lit "{'detail':''}"))
         (lit "/api/v1/analyze") (TextPayload (lit "hi")))
  = Raise (ThrowLib (ApiError
                       (lit "API request failed with status 500") 500
                       (Some (json_lit "{'detail':''}")))) /\
  snd (request (constructor (mkOptions None None))
         (answering_fetch ApiAnalyzeResponse.t 500 None
            (json_lit "{'detail':{'toString':1}}"))
         (lit "/api/v1/analyze") (TextPayload (lit "hi")))
  = Raise (ThrowLib (NetworkError
                       (lit "Failed to connect to the API. Please check your network connection.")
                       (Some TypeError_to_primitive))).
Proof.
  repeat split.
Qed.

(** ** Rate limiting *)

Lemma request_rate_limited {T : Type}
    (self : EmotionAnalyzer) (fetch : Fetch T) (endpoint : jsstring)
    (body : Payload) (response : Response T) :
  fetch (init_of self endpoint body) = Fulfilled response ->
  status response = 429%Z ->
  snd (request self fetch endpoint body)
  = Raise (ThrowLib
             (RateLimitError
                (lit "Rate limit exceeded. Please wait before making more requests.")
                (retryAfter_of (headers_get response (lit "Retry-After"))))).
Proof.
  intros Hfetch Hst. rewrite request_unfold, Hfetch.
  unfold request_try, ok. simpl. rewrite Hst. reflexivity.
Qed.

(** [retryAfter] is absent exactly when the header is missing or empty. *)
Lemma retryAfter_of_absent (header : option jsstring) :
  retryAfter_of header = None <-> header = None \/ header = Some [].
Proof.
  destruct header as [[|c r]|]; simpl; split; intros H;
    try tauto; try discriminate; try (right; reflexivity).
  destruct H as [H|H]; discriminate.
Qed.

(** A header that is a decimal numeral gives that number. *)
Lemma retryAfter_of_5 :
  retryAfter_of (Some (lit "5")) = Some (of_Z 5).
Proof. reflexivity. Qed.

(** A Retry-After header that is the decimal numeral of [n], a binary64
    value, gives [retryAfter = n]. *)
Lemma retryAfter_of_numeral (n : nat) :
  (N.of_nat n <= 2 ^ 53)%N ->
  retryAfter_of (Some (show_nat n)) = Some (Dec false (N.of_nat n) 0).
Proof.
  intros Hn. unfold retryAfter_of. rewrite parseInt10_show_nat by exact Hn.
  unfold show_nat.
  destruct (uint_digits_head _ (to_uint_not_Nil n)) as [c [r [E _]]].
  rewrite E. reflexivity.
Qed.

(** C2 at a response 429 whose Retry-After header carries an HTTP date,
    the other form the header may take: the header has no integer to
    read, and the error carries [retryAfter = NaN], not an absent
    field. *)
Theorem request_rate_limit_retryAfter_NaN :
  snd (request (constructor (mkOptions None None))
         (answering_fetch ApiAnalyzeResponse.t 429
            (Some (lit "Wed, 21 Oct 2015 07:28:00 GMT")) [])
         (lit "/api/v1/analyze") (TextPayload (lit "hi")))
  = Raise (ThrowLib
             (RateLimitError
                (lit "Rate limit exceeded. Please wait before making more requests.")
                (Some NaN))).
Proof. reflexivity. Qed.

(* ================================================================== *)
(** * The public methods                                              *)
(* ================================================================== *)

Lemma analyze_events (self : EmotionAnalyzer) (fetch : Fetch ApiAnalyzeResponse.t)
    (text : JsValue) (ev : Event) :
  In ev (fst (analyze self fetch text)) ->
  ev = EvSetTimeout (timeout self) \/
  ev = EvClearTimeout \/
  exists body,
    ev = EvFetch (mkRequest (baseUrl self ++ lit "/api/v1/analyze") (lit "POST")
                    [(lit "Content-Type", lit "application/json")] body).
Proof.
  unfold analyze, and_then.
  destruct (validateText text); [|simpl; tauto].
  destruct (String_trim text) as [trimmed|]; [|simpl; tauto].
  pose proof (request_events self fetch (lit "/api/v1/analyze")
                (TextPayload trimmed) ev) as H.
  destruct (request self fetch _ _) as [events completion]; simpl in *.
  intros Hin. destruct (H Hin) as [?|[?|?]]; eauto.
Qed.

Lemma analyzeBatch_events (self : EmotionAnalyzer)
    (fetch : Fetch ApiBatchResponse.t) (texts : JsValue) (ev : Event) :
  In ev (fst (analyzeBatch self fetch texts)) ->
  ev = EvSetTimeout (timeout self) \/
  ev = EvClearTimeout \/
  exists body,
    ev = EvFetch (mkRequest (baseUrl self ++ lit "/api/v1/analyze/batch")
                    (lit "POST")
                    [(lit "Content-Type", lit "application/json")] body).
Proof.
  unfold analyzeBatch, and_then.
  destruct (validateBatchTexts texts); [|simpl; tauto].
  destruct (Array_map_trim texts) as [trimmed|]; [|simpl; tauto].
  pose proof (request_events self fetch (lit "/api/v1/analyze/batch")
                (TextsPayload trimmed) ev) as H.
  destruct (request self fetch _ _) as [events completion]; simpl in *.
  intros Hin. destruct (H Hin) as [?|[?|?]]; eauto.
Qed.

(** C7.  For a text that passes validation, [analyze] issues exactly one
    request: a POST to the single-analysis endpoint under the base URL,
    with the payload [{text}] holding the trimmed text; when the response
    has a 2xx status and its body reads as the wire object, the call
    resolves to that object with its three members renamed. *)
Theorem analyze_sends_trimmed_text_and_renames
    (self : EmotionAnalyzer) (fetch : Fetch ApiAnalyzeResponse.t)
    (text : JsValue) :
  validateText text = Done tt ->
  exists s,
    text = VString s /\
    let init := mkRequest (baseUrl self ++ lit "/api/v1/analyze") (lit "POST")
                  [(lit "Content-Type", lit "application/json")]
                  (TextPayload (trim s)) in
    (forall r, In (EvFetch r) (fst (analyze self fetch text)) <-> r = init) /\
    (forall response w,
       fetch init = Fulfilled response ->
       ok response = true ->
       json response = Fulfilled w ->
       snd (analyze self fetch text)
       = Done (EmotionResult.mk
                 (ApiAnalyzeResponse.primary_emotion w)
                 (ApiAnalyzeResponse.confidence w)
                 (ApiAnalyzeResponse.all_emotions w))).
Proof.
  intros Hv. destruct (validateText_string _ Hv) as [s ->].
  exists s. split; [reflexivity|]. cbv zeta.
  fold (init_of self (lit "/api/v1/analyze") (TextPayload (trim s))).
  unfold analyze, and_then. rewrite Hv. cbn [String_trim].
  split.
  - intros r.
    destruct (request_trace self fetch (lit "/api/v1/analyze")
                (TextPayload (trim s))) as [rest [Htrace [_ Hrest]]].
    destruct (request self fetch _ _) as [events completion].
    cbn [fst] in *. subst events. split.
    + intros [H|[H|H]]; [discriminate | now inversion H |].
      apply Hrest in H. discriminate.
    + intros ->. right. left. reflexivity.
  - intros response w Hfetch Hok Hjson.
    unfold request, request_try. unfold init_of in Hfetch.
    rewrite Hfetch, Hok, Hjson. reflexivity.
Qed.

(** C7 at a text with white space around it and the response of the
    specification's example: joy with confidence 0.9. *)
Lemma analyze_sends_trimmed_text_and_renames_witness :
  snd (analyze (constructor (mkOptions None None))
         (succeeding_fetch joy_response) (VString (lit " I am happy ")))
  = Done (EmotionResult.mk (lit "joy") (Dec false 9 (-1))
            [mkEmotionScore (lit "joy") (Dec false 9 (-1))]).
Proof.
  destruct (analyze_sends_trimmed_text_and_renames
              (constructor (mkOptions None None))
              (succeeding_fetch joy_response)
              (VString (lit " I am happy ")) eq_refl)
    as [s [Hs [_ Hres]]].
  exact (Hres _ joy_response eq_refl eq_refl eq_refl).
Defined.

(** C1, as the code has it.  A successful [analyzeBatch] returns the
    [count] of the wire response unchanged and one result per wire
    result, in order; so [count] equals the number of results exactly
    when the server sent a [count] equal to the number of its results. *)
Theorem analyzeBatch_copies_count
    (self : EmotionAnalyzer) (fetch : Fetch ApiBatchResponse.t)
    (texts : JsValue) (events : list Event) (r : BatchEmotionResult.t) :
  analyzeBatch self fetch texts = (events, Done r) ->
  exists init response w,
    In (EvFetch init) events /\
    fetch init = Fulfilled response /\
    json response = Fulfilled w /\
    BatchEmotionResult.count r = ApiBatchResponse.count w /\
    BatchEmotionResult.results r
    = List.map transformResponse (ApiBatchResponse.results w) /\
    length (BatchEmotionResult.results r)
    = length (ApiBatchResponse.results w) /\
    (BatchEmotionResult.count r
     = Z.of_nat (length (BatchEmotionResult.results r)) <->
     ApiBatchResponse.count w
     = Z.of_nat (length (ApiBatchResponse.results w))).
Proof.
  unfold analyzeBatch, and_then.
  destruct (validateBatchTexts texts); [|discriminate].
  destruct (Array_map_trim texts) as [trimmed|]; [|discriminate].
  unfold request, request_try.
  destruct (fetch _) as [response|f] eqn:Hfetch; simpl; [|discriminate].
  destruct (negb (ok response)); simpl.
  - destruct (status response =? 429)%Z; [discriminate|].
    unfold throw_ApiError. destruct (Error_message _); discriminate.
  - destruct (json response) as [w|f] eqn:Hjson; simpl; [|discriminate].
    intros H. inversion H; subst; clear H.
    eexists _, response, w. simpl.
    split; [right; left; reflexivity|].
    split; [exact Hfetch|].
    split; [exact Hjson|].
    split; [reflexivity|].
    split; [reflexivity|].
    rewrite length_map. split; [reflexivity | tauto].
Qed.

(** C1 at a batch of two texts answered with two results and count 2. *)
Lemma analyzeBatch_copies_count_witness :
  exists init response w,
    In (EvFetch init)
       (fst (analyzeBatch (constructor (mkOptions None None))
               (succeeding_fetch two_results)
               (VArray [VString (lit "ok"); VString (lit "fine")]))) /\
    succeeding_fetch two_results init = Fulfilled response /\
    json response = Fulfilled w /\
    2%Z = ApiBatchResponse.count w /\
    [transformResponse joy_response; transformResponse joy_response]
    = List.map transformResponse (ApiBatchResponse.results w) /\
    2 = length (ApiBatchResponse.results w) /\
    (2%Z = Z.of_nat 2 <->
     ApiBatchResponse.count w
     = Z.of_nat (length (ApiBatchResponse.results w))).
Proof.
  exact (analyzeBatch_copies_count
           (constructor (mkOptions None None))
           (succeeding_fetch two_results)
           (VArray [VString (lit "ok"); VString (lit "fine")])
           _
           (BatchEmotionResult.mk
              [transformResponse joy_response; transformResponse joy_response] 2)
           eq_refl).
Defined.

(** C1 as stated fails: a server that answers one text with no result and
    count 5 makes [analyzeBatch] return count 5 with zero results. *)
Lemma analyzeBatch_count_differs_from_length :
  snd (analyzeBatch (constructor (mkOptions None None))
         (succeeding_fetch (ApiBatchResponse.mk [] 5))
         (VArray [VString (lit "ok")]))
  = Done (BatchEmotionResult.mk [] 5) /\
  BatchEmotionResult.count (BatchEmotionResult.mk [] 5)
  <> Z.of_nat (length (BatchEmotionResult.results (BatchEmotionResult.mk [] 5))).
Proof.
  split; [reflexivity | discriminate].
Qed.

(** What [texts.map(t => t.trim())] may throw is not an error of the
    library. *)
Lemma Array_map_trim_throws_foreign (texts : JsValue) (e : EmotionAnalyzerError) :
  Array_map_trim texts <> Raise (ThrowLib e).
Proof.
  unfold Array_map_trim.
  destruct (array_slots texts) as [slots|]; [|discriminate].
  induction slots as [|[x|] r IH]; simpl.
  - discriminate.
  - destruct x; simpl; try discriminate.
    destruct (map_trim r); simpl; [discriminate | exact IH].
  - destruct (map_trim r); simpl; [discriminate | exact IH].
Qed.

(** C9.  Every failure of batch validation is a [ValidationError] whose
    field is texts, the failures on an element included; and no failure
    of [analyzeBatch] is an error whose field is text. *)
Theorem analyzeBatch_never_reports_field_text :
  (forall texts t,
     validateBatchTexts texts = Raise t ->
     exists m, t = ThrowLib (ValidationError m (Some (lit "texts")))) /\
  (forall v index t,
     validateBatchElement v index = Raise t ->
     exists m, t = ThrowLib (ValidationError m (Some (lit "texts")))) /\
  (forall self fetch texts t e,
     snd (analyzeBatch self fetch texts) = Raise t ->
     t = ThrowLib e ->
     field_of e <> Some (lit "text")).
Proof.
  split; [exact validateBatchTexts_raises|]. split.
  - intros v index t H.
    destruct (validateBatchElement_raises _ _ _ H) as [rest ->]. eauto.
  - intros self fetch texts t e. unfold analyzeBatch, and_then.
    destruct (validateBatchTexts texts) as [[]|t0] eqn:Hv.
    + destruct (Array_map_trim texts) as [trimmed|t1] eqn:Hm.
      * pose proof (@request_fails_with_library_error _ self fetch
                      (lit "/api/v1/analyze/batch") (TextsPayload trimmed)) as Hr.
        destruct (request self fetch _ _) as [events [w|t2]]; simpl in *.
        -- discriminate.
        -- intros H; inversion H; subst. intros ->.
           destruct (Hr _ eq_refl) as [e' [He' Hf]].
           inversion He'; subst. rewrite Hf. discriminate.
      * simpl. intros H; inversion H; subst. intros ->.
        exfalso. exact (Array_map_trim_throws_foreign _ _ Hm).
    + simpl. intros H; inversion H; subst. intros ->.
      destruct (validateBatchTexts_raises _ _ Hv) as [m Hm].
      inversion Hm; subst. simpl. discriminate.
Qed.

(** C9 at the batch of ok, the empty string and ok: the failure on the
    element at index 1 carries the field texts. *)
Lemma analyzeBatch_never_reports_field_text_witness :
  validateBatchTexts
    (VArray [VString (lit "ok"); VString []; VString (lit "ok")])
  = Raise (ThrowLib (ValidationError
                       (lit "Text at index 1 is required and must be a string")
                       (Some (lit "texts")))) /\
  exists m,
    ThrowLib (ValidationError
                (lit "Text at index 1 is required and must be a string")
                (Some (lit "texts")))
    = ThrowLib (ValidationError m (Some (lit "texts"))).
Proof.
  split; [reflexivity|].
  exact (proj1 analyzeBatch_never_reports_field_text
           (VArray [VString (lit "ok"); VString []; VString (lit "ok")])
           _ eq_refl).
Defined.

(* ================================================================== *)
(** * The constructor                                                 *)
(* ================================================================== *)

Lemma replace_trailing_slash_cases (s : jsstring) :
  (ends_with_slash s = true /\ s = replace_trailing_slash s ++ [47%N]) \/
  (ends_with_slash s = false /\ replace_trailing_slash s = s).
Proof.
  unfold ends_with_slash, replace_trailing_slash.
  destruct (rev s) as [|c r] eqn:E.
  - right. split; reflexivity.
  - assert (Hs : s = rev r ++ [c]).
    { rewrite <- (rev_involutive s), E. reflexivity. }
    destruct (N.eq_dec c 47) as [->|Hc].
    + left. split; [reflexivity | exact Hs].
    + right. destruct c as [|p]; [split; reflexivity|].
      do 6 (destruct p as [p|p|]; try (split; reflexivity)); congruence.
Qed.

Lemma ends_with_slash_app (p : jsstring) (c : N) :
  ends_with_slash (p ++ [c]) = (c =? 47)%N.
Proof.
  unfold ends_with_slash. rewrite rev_app_distr. simpl.
  destruct (N.eqb_spec c 47) as [->|Hc]; [reflexivity|].
  destruct c as [|q]; [reflexivity|].
  do 6 (destruct q as [q|q|]; try reflexivity); congruence.
Qed.

Lemma baseUrl_or_default_nonempty (s : jsstring) :
  s <> [] -> baseUrl_or_default (Some s) = s.
Proof.
  intros Hs. destruct s; [congruence | reflexivity].
Qed.

(** C8, as the code has it.  A non-empty [baseUrl] is stored with one
    trailing slash removed when it has one, and unchanged otherwise; the
    stored value still ends with a slash exactly when the input ended
    with two.  The stored [baseUrl] and [timeout] are what every later
    request uses: each timer is set to [timeout], each URL is [baseUrl]
    followed by the endpoint. *)
Theorem constructor_strips_one_trailing_slash
    (s : jsstring) (t : option Z) (Hs : s <> []) :
  let self := constructor (mkOptions (Some s) t) in
  (ends_with_slash s = true -> s = baseUrl self ++ [47%N]) /\
  (ends_with_slash s = false -> baseUrl self = s) /\
  (ends_with_slash (baseUrl self) = true <-> exists p, s = p ++ [47%N; 47%N]) /\
  (forall fetch text ms,
     In (EvSetTimeout ms) (fst (analyze self fetch text)) -> ms = timeout self) /\
  (forall fetch text r,
     In (EvFetch r) (fst (analyze self fetch text)) ->
     req_url r = baseUrl self ++ lit "/api/v1/analyze") /\
  (forall fetch texts ms,
     In (EvSetTimeout ms) (fst (analyzeBatch self fetch texts)) ->
     ms = timeout self) /\
  (forall fetch texts r,
     In (EvFetch r) (fst (analyzeBatch self fetch texts)) ->
     req_url r = baseUrl self ++ lit "/api/v1/analyze/batch").
Proof.
  intros self.
  assert (Hb : baseUrl self = replace_trailing_slash s).
  { unfold self, constructor. cbn [baseUrl opt_baseUrl].
    now rewrite baseUrl_or_default_nonempty. }
  destruct (replace_trailing_slash_cases s) as [[He Heq]|[He Heq]].
  - split; [|split; [|split]].
    + intros _. now rewrite Hb.
    + congruence.
    + rewrite Hb. split.
      * intros Hends.
        exists (replace_trailing_slash (replace_trailing_slash s)).
        destruct (replace_trailing_slash_cases (replace_trailing_slash s))
          as [[_ H2]|[H2 _]]; [|congruence].
        rewrite Heq at 1. rewrite H2 at 1. rewrite <- app_assoc. reflexivity.
      * intros [p Hp].
        assert (Hpp : s = (p ++ [47%N]) ++ [47%N])
          by (rewrite Hp, <- app_assoc; reflexivity).
        rewrite Hpp in Heq at 1. apply app_inj_tail in Heq.
        destruct Heq as [Heq _]. rewrite <- Heq. apply ends_with_slash_app.
    + repeat split; intros.
      * destruct (analyze_events _ _ _ _ H) as [E|[E|[b E]]]; congruence.
      * destruct (analyze_events _ _ _ _ H) as [E|[E|[b E]]];
          try discriminate. now inversion E.
      * destruct (analyzeBatch_events _ _ _ _ H) as [E|[E|[b E]]]; congruence.
      * destruct (analyzeBatch_events _ _ _ _ H) as [E|[E|[b E]]];
          try discriminate. now inversion E.
  - split; [|split; [|split]].
    + congruence.
    + intros _. now rewrite Hb.
    + rewrite Hb, Heq. split; [congruence|].
      intros [p Hp].
      assert (Hpp : s = (p ++ [47%N]) ++ [47%N])
        by (rewrite Hp, <- app_assoc; reflexivity).
      rewrite Hpp, ends_with_slash_app in He. discriminate.
    + repeat split; intros.
      * destruct (analyze_events _ _ _ _ H) as [E|[E|[b E]]]; congruence.
      * destruct (analyze_events _ _ _ _ H) as [E|[E|[b E]]];
          try discriminate. now inversion E.
      * destruct (analyzeBatch_events _ _ _ _ H) as [E|[E|[b E]]]; congruence.
      * destruct (analyzeBatch_events _ _ _ _ H) as [E|[E|[b E]]];
          try discriminate. now inversion E.
Qed.

(** C8 at [https://example.com/]: one slash removed. *)
Lemma constructor_strips_one_trailing_slash_witness :
  lit "https://example.com/" <> [] /\
  lit "https://example.com/"
  = baseUrl (constructor (mkOptions (Some (lit "https://example.com/")) None))
    ++ [47%N].
Proof.
  assert (H : lit "https://example.com/" <> []) by discriminate.
  split; [exact H|].
  apply (constructor_strips_one_trailing_slash _ None H).
  reflexivity.
Defined.

(** C8 as stated fails: a base URL that ends with two slashes is stored
    with one of them. *)
Lemma constructor_keeps_a_trailing_slash :
  baseUrl (constructor (mkOptions (Some (lit "http://a//")) None))
  = lit "http://a/" /\
  ends_with_slash
    (baseUrl (constructor (mkOptions (Some (lit "http://a//")) None))) = true.
Proof.
  split; reflexivity.
Qed.

(** C10.  An empty or absent [baseUrl] gives the default base URL; a
    [timeout] that is given is kept whatever its value, 0 and negative
    numbers included; only an absent [timeout] gives the default 30000. *)
Theorem constructor_falsy_options :
  (forall t, baseUrl (constructor (mkOptions (Some []) t)) = DEFAULT_BASE_URL) /\
  (forall t, baseUrl (constructor (mkOptions None t)) = DEFAULT_BASE_URL) /\
  (forall b, timeout (constructor (mkOptions b (Some 0%Z))) = 0%Z) /\
  (forall b ms, timeout (constructor (mkOptions b (Some ms))) = ms) /\
  (forall b, timeout (constructor (mkOptions b None)) = 30000%Z).
Proof.
  repeat split.
Qed.

(* ================================================================== *)
(** * Further properties: countWords                                  *)
(* ================================================================== *)

Lemma trimStart_nil_iff (s : jsstring) : trimStart s = [] <-> blank s = true.
Proof.
  induction s as [|c r IH]; simpl; [tauto|].
  destruct (isWhiteSpace c); simpl; [exact IH | split; discriminate].
Qed.

Lemma trim_nil_iff (s : jsstring) : trim s = [] <-> blank s = true.
Proof.
  rewrite <- trimStart_nil_iff. unfold trim. split.
  - intros H.
    destruct (trimEnd_decompose (trimStart s)) as [w [Hw Hall]].
    rewrite H in Hw. simpl in Hw.
    pose proof (trimStart_no_leading_space s) as Hhead.
    rewrite Hw in Hhead |- *.
    destruct Hall as [|c w Hc _]; [reflexivity|].
    simpl in Hhead. congruence.
  - intros ->. reflexivity.
Qed.

Lemma count_word_starts_zero_iff (s : jsstring) :
  count_word_starts true s = 0 <-> blank s = true.
Proof.
  induction s as [|c r IH]; simpl; [tauto|].
  destruct (isWhiteSpace c); simpl; [exact IH | split; discriminate].
Qed.

Lemma count_word_starts_app_space (a b : jsstring) (c : N) :
  isWhiteSpace c = true ->
  forall after_space,
    count_word_starts after_space (a ++ c :: b)
    = count_word_starts after_space a + count_word_starts true b.
Proof.
  intros Hc. induction a as [|x r IH]; intros after_space.
  - simpl. now rewrite Hc.
  - cbn [app count_word_starts].
    destruct (isWhiteSpace x); rewrite IH; lia.
Qed.

Lemma count_word_starts_bound (s : jsstring) :
  2 * count_word_starts true s <= length s + 1 /\
  2 * count_word_starts false s <= length s.
Proof.
  induction s as [|c r [IHt IHf]]; [simpl; lia|].
  cbn [count_word_starts length]. destruct (isWhiteSpace c); lia.
Qed.

Lemma countWords_is_word_starts (s : jsstring) :
  countWords s = count_word_starts true s.
Proof.
  now rewrite countWords_word_count, word_count_word_starts.
Qed.

(** X1.  [countWords] counts the words of the text: the positions where
    a code unit that is not white space stands at the start of the text
    or after white space.  White space around the text and the length of
    the runs between words do not matter. *)
Theorem countWords_counts_word_starts (s : jsstring) :
  countWords s = count_word_starts true s /\
  countWords (trim s) = countWords s.
Proof.
  split; [apply countWords_is_word_starts|].
  rewrite countWords_trim. symmetry. apply countWords_word_count.
Qed.

(** X2.  [countWords] is 0 exactly on the texts that trim to the empty
    string, that is on the texts made of white space only, the empty
    string included. *)
Theorem countWords_zero_iff_blank (s : jsstring) :
  (countWords s = 0 <-> trim s = []) /\
  (countWords s = 0 <-> blank s = true).
Proof.
  rewrite countWords_is_word_starts, trim_nil_iff.
  split; apply count_word_starts_zero_iff.
Qed.

(** X3.  Joining two texts with a white space code unit adds their word
    counts. *)
Theorem countWords_joined (a b : jsstring) (c : N) :
  isWhiteSpace c = true ->
  countWords (a ++ c :: b) = countWords a + countWords b.
Proof.
  intros Hc. rewrite !countWords_is_word_starts.
  now apply count_word_starts_app_space.
Qed.

(** X3 at two texts of two words and one word joined by a line feed. *)
Lemma countWords_joined_witness :
  countWords (lit "so happy" ++ 10%N :: lit "today")
  = countWords (lit "so happy") + countWords (lit "today").
Proof.
  apply (countWords_joined (lit "so happy") (lit "today") 10%N).
  reflexivity.
Defined.

(** X4.  A text of [n] code units has at most (n + 1) / 2 words. *)
Theorem countWords_at_most_half_length (s : jsstring) :
  2 * countWords s <= length s + 1.
Proof.
  rewrite countWords_is_word_starts. apply count_word_starts_bound.
Qed.

(* ================================================================== *)
(** * Further properties: validation                                  *)
(* ================================================================== *)

(** [validateText] by cases on its argument. *)
Lemma validateText_cases (text : JsValue) :
  validateText text
  = match text with
    | VString ((_ :: _) as s) =>
        if length (trim s) =? 0 then throw text_empty
        else if 100 <? word_count s then throw (text_too_long (word_count s))
        else Done tt
    | _ => throw text_required
    end.
Proof.
  destruct text as [| |b|n|s|elems|slots|props];
    try (unfold validateText; cbn [typeof_is_string negb];
         rewrite orb_true_r; reflexivity).
  destruct s as [|c r]; [reflexivity|].
  unfold validateText. cbn [ToBoolean typeof_is_string negb length Nat.eqb orb].
  cbn [String_trim bind]. rewrite countWords_trim. reflexivity.
Qed.

Lemma validateBatchElement_cases (text : JsValue) (index : nat) :
  validateBatchElement text index
  = match text with
    | VString ((_ :: _) as s) =>
        if length (trim s) =? 0
        then throw (ValidationError
                      (lit "Text at index " ++ show_nat index
                       ++ lit " cannot be empty")
                      (Some (lit "texts")))
        else if 100 <? word_count s
        then throw (ValidationError
                      (lit "Text at index " ++ show_nat index
                       ++ lit " exceeds maximum word limit. Got "
                       ++ show_nat (word_count s)
                       ++ lit " words, maximum is 100")
                      (Some (lit "texts")))
        else Done tt
    | _ =>
        throw (ValidationError
                 (lit "Text at index " ++ show_nat index
                  ++ lit " is required and must be a string")
                 (Some (lit "texts")))
    end.
Proof.
  destruct text as [| |b|n|s|elems|slots|props];
    try (unfold validateBatchElement; cbn [typeof_is_string negb];
         rewrite orb_true_r; reflexivity).
  destruct s as [|c r]; [reflexivity|].
  unfold validateBatchElement.
  cbn [ToBoolean typeof_is_string negb length Nat.eqb orb].
  cbn [String_trim bind]. rewrite countWords_trim. reflexivity.
Qed.

Lemma length_zero_iff_nil_b (s : jsstring) :
  (length s =? 0) = true <-> s = [].
Proof.
  destruct s; simpl; split; congruence.
Qed.

Lemma word_count_trim (s : jsstring) : word_count (trim s) = word_count s.
Proof.
  unfold word_count. now rewrite trim_idempotent.
Qed.

(** When [validateText] passes. *)
Lemma validateText_pass_iff (text : JsValue) :
  validateText text = Done tt <->
  exists s, text = VString s /\ trim s <> [] /\ word_count s <= 100.
Proof.
  rewrite validateText_cases. split.
  - destruct text as [| |b|n|s|elems|slots|props]; try discriminate.
    destruct s as [|c r]; [discriminate|].
    destruct (length (trim (c :: r)) =? 0) eqn:El; [discriminate|].
    destruct (Nat.ltb_spec 100 (word_count (c :: r))); [discriminate|].
    intros _. exists (c :: r). split; [reflexivity|]. split; [|assumption].
    intros Ht. rewrite Ht in El. discriminate.
  - intros [s [-> [Ht Hw]]].
    destruct s as [|c r]; [exfalso; apply Ht; reflexivity|].
    destruct (length (trim (c :: r)) =? 0) eqn:El.
    + apply length_zero_iff_nil_b in El. contradiction.
    + destruct (Nat.ltb_spec 100 (word_count (c :: r))); [lia | reflexivity].
Qed.

Lemma blank_false_trim (s : jsstring) : blank s = false <-> trim s <> [].
Proof.
  rewrite trim_nil_iff. destruct (blank s); split; congruence.
Qed.

(** X5.  A text of at most 200 code units that is not blank passes
    [validateText]: it cannot hold more than 100 words. *)
Theorem validateText_short_text_passes (s : jsstring) :
  length s <= 200 -> blank s = false -> validateText (VString s) = Done tt.
Proof.
  intros Hlen Hb. apply validateText_pass_iff.
  exists s. split; [reflexivity|]. split; [now apply blank_false_trim|].
  rewrite word_count_word_starts.
  pose proof (count_word_starts_bound s). lia.
Qed.

(** X5 at a text of three words. *)
Lemma validateText_short_text_passes_witness :
  validateText (VString (lit "I am happy")) = Done tt.
Proof.
  apply (validateText_short_text_passes (lit "I am happy")).
  - apply Nat.leb_le. reflexivity.
  - reflexivity.
Defined.

(** X6.  White space around a text does not change whether it passes
    [validateText]: the text passes exactly when its trimmed form, the
    one [analyze] sends, passes. *)
Theorem validateText_ignores_surrounding_space (s : jsstring) :
  validateText (VString (trim s)) = Done tt <->
  validateText (VString s) = Done tt.
Proof.
  rewrite !validateText_pass_iff. split.
  - intros [t [Ht [Hne Hw]]]. inversion Ht; subst t.
    rewrite trim_idempotent in Hne. rewrite word_count_trim in Hw.
    exists s. auto.
  - intros [t [Ht [Hne Hw]]]. inversion Ht; subst t.
    exists (trim s). rewrite trim_idempotent, word_count_trim. auto.
Qed.

(** X7.  The failure of [validateText] tells the case.  A value that is
    not a string and the empty string fail with the message that the
    text is required and must be a string; a string that is not empty
    and holds white space only fails with the message that the text
    cannot be empty; a text of more than 100 words fails with the message
    that gives its word count; every other string passes. *)
Theorem validateText_decision :
  (forall v, typeof_is_string v = false ->
     validateText v = throw text_required) /\
  validateText (VString []) = throw text_required /\
  (forall s, s <> [] -> blank s = true ->
     validateText (VString s) = throw text_empty) /\
  (forall s, blank s = false -> 100 < countWords s ->
     validateText (VString s) = throw (text_too_long (countWords s))) /\
  (forall s, blank s = false -> countWords s <= 100 ->
     validateText (VString s) = Done tt).
Proof.
  split; [|split; [|split; [|split]]].
  - intros v Hv. rewrite validateText_cases.
    destruct v; try reflexivity. discriminate.
  - reflexivity.
  - intros s Hs Hb. rewrite validateText_cases.
    destruct s as [|c r]; [congruence|].
    apply trim_nil_iff in Hb. now rewrite Hb.
  - intros s Hb Hw. rewrite validateText_cases.
    rewrite countWords_word_count in *.
    destruct s as [|c r]; [discriminate|].
    apply blank_false_trim in Hb.
    destruct (length (trim (c :: r)) =? 0) eqn:El.
    + apply length_zero_iff_nil_b in El. contradiction.
    + destruct (Nat.ltb_spec 100 (word_count (c :: r))); [reflexivity | lia].
  - intros s Hb Hw. apply validateText_pass_iff.
    exists s. rewrite <- countWords_word_count.
    split; [reflexivity|]. split; [now apply blank_false_trim | assumption].
Qed.

(** X7 at a string of two spaces and a tab. *)
Lemma validateText_decision_witness :
  validateText (VString [32%N; 32%N; 9%N]) = throw text_empty.
Proof.
  apply (proj1 (proj2 (proj2 validateText_decision)) [32%N; 32%N; 9%N]).
  - discriminate.
  - reflexivity.
Defined.

(** X8.  The callback of [validateBatchTexts] fails on an element exactly
    as [validateText] fails on it, with the same message but for the
    index: where [validateText] says Text, the callback says Text at
    index i, and the rest of the message is the same. *)
Theorem validateBatchElement_mirrors_validateText (v : JsValue) (index : nat) :
  (validateText v = Done tt /\ validateBatchElement v index = Done tt) \/
  exists rest,
    validateText v
    = throw (ValidationError (lit "Text" ++ rest) (Some (lit "text"))) /\
    validateBatchElement v index
    = throw (ValidationError
               (lit "Text at index " ++ show_nat index ++ rest)
               (Some (lit "texts"))).
Proof.
  rewrite validateText_cases, validateBatchElement_cases.
  destruct v as [| |b|n|s|elems|slots|props];
    try (right; exists (lit " is required and must be a string");
         split; reflexivity).
  destruct s as [|c r];
    [right; exists (lit " is required and must be a string");
     split; reflexivity|].
  destruct (length (trim (c :: r)) =? 0).
  - right. exists (lit " cannot be empty"). split; reflexivity.
  - destruct (100 <? word_count (c :: r)).
    + right.
      exists (lit " exceeds maximum word limit. Got "
              ++ show_nat (word_count (c :: r))
              ++ lit " words, maximum is 100").
      split; reflexivity.
    + left. split; reflexivity.
Qed.

(** X9.  The size of the batch is checked before its elements: an array
    of more than 10 elements, whatever they are, makes [analyzeBatch]
    fail before any request, with the message that gives the size of the
    batch and the maximum 10. *)
Theorem analyzeBatch_size_checked_first
    (self : EmotionAnalyzer) (fetch : Fetch ApiBatchResponse.t)
    (elems : list JsValue) :
  10 < length elems ->
  analyzeBatch self fetch (VArray elems)
  = ([], throw (ValidationError
                  (lit "Batch size exceeds maximum limit. Got "
                   ++ show_nat (length elems)
                   ++ lit " texts, maximum is 10")
                  (Some (lit "texts")))).
Proof.
  intros H. unfold analyzeBatch, and_then.
  rewrite validateBatchTexts_dense. unfold MAX_BATCH_SIZE.
  rewrite (proj2 (Nat.eqb_neq (length elems) 0)) by lia.
  rewrite (proj2 (Nat.ltb_lt 10 (length elems))) by exact H.
  reflexivity.
Qed.

(** X9 at a batch of eleven [null]s: the error is about the size, not
    about the element at index 0. *)
Lemma analyzeBatch_size_checked_first_witness :
  analyzeBatch (constructor (mkOptions None None))
    (succeeding_fetch two_results) (VArray (repeat VNull 11))
  = ([], throw (ValidationError
                  (lit "Batch size exceeds maximum limit. Got 11 texts, maximum is 10")
                  (Some (lit "texts")))).
Proof.
  apply (analyzeBatch_size_checked_first
           (constructor (mkOptions None None)) (succeeding_fetch two_results)
           (repeat VNull 11)).
  apply Nat.ltb_lt. reflexivity.
Defined.

(* ================================================================== *)
(** * Further properties: the request pipeline                        *)
(* ================================================================== *)

(** The outcome of [request], by what the transport does. *)
Lemma request_outcome {T : Type} (self : EmotionAnalyzer) (fetch : Fetch T)
    (endpoint : jsstring) (body : Payload) :
  snd (request self fetch endpoint body)
  = match fetch (init_of self endpoint body) with
    | Rejected f => throw (request_catch self (ThrowForeign f))
    | Fulfilled response =>
        if ok response
        then match json response with
             | Fulfilled v => Done v
             | Rejected f => throw (request_catch self (ThrowForeign f))
             end
        else if (status response =? 429)%Z
        then throw (RateLimitError
                      (lit "Rate limit exceeded. Please wait before making more requests.")
                      (retryAfter_of (headers_get response (lit "Retry-After"))))
        else match Error_message (errorMessage_of (status response)
                                    (responseText_of response)) with
             | Some message =>
                 throw (ApiError message (status response)
                          (Some (responseText_of response)))
             | None =>
                 throw (NetworkError
                          (lit "Failed to connect to the API. Please check your network connection.")
                          (Some TypeError_to_primitive))
             end
    end.
Proof.
  rewrite request_unfold. unfold request_try.
  destruct (fetch _) as [response|f]; cbn [snd]; [|reflexivity].
  destruct (ok response); cbn [negb].
  - destruct (json response); reflexivity.
  - destruct (status response =? 429)%Z; [reflexivity|].
    unfold responseText_of, throw_ApiError.
    destruct (Error_message _); reflexivity.
Qed.

Lemma ok_iff_2xx {T : Type} (response : Response T) :
  ok response = true <-> (200 <= status response <= 299)%Z.
Proof.
  unfold ok. rewrite andb_true_iff, !Z.leb_le. tauto.
Qed.

(** What [request_catch] makes of a value that is not of the library. *)
Lemma request_catch_foreign (self : EmotionAnalyzer) (f : Foreign) :
  (exists e, f = FError e /\ err_name e = lit "AbortError" /\
             request_catch self (ThrowForeign f) = new_TimeoutError (timeout self)) \/
  (is_abort (ThrowForeign f) = false /\
   exists m, request_catch self (ThrowForeign f)
             = NetworkError m (cause_of (ThrowForeign f))).
Proof.
  destruct f as [e|v]; simpl.
  - destruct (jsstring_eqb (err_name e) (lit "AbortError")) eqn:E.
    + left. exists e. apply jsstring_eqb_eq in E. auto.
    + right. split; [reflexivity|].
      destruct (err_isTypeError e); eexists; reflexivity.
  - right. split; [reflexivity|]. eexists. reflexivity.
Qed.

(** X10.  Every call of [request] sets the timer to the stored timeout,
    calls [fetch] exactly once, on the stored base URL followed by the
    endpoint, and ends by clearing the timer, whether it succeeds or
    fails: no path leaves the timer running, and nothing is retried. *)
Theorem request_clears_timer_and_fetches_once {T : Type}
    (self : EmotionAnalyzer) (fetch : Fetch T) (endpoint : jsstring)
    (body : Payload) :
  exists middle,
    fst (request self fetch endpoint body)
    = EvSetTimeout (timeout self)
      :: EvFetch (mkRequest (baseUrl self ++ endpoint) (lit "POST")
                    [(lit "Content-Type", lit "application/json")] body)
      :: middle ++ [EvClearTimeout] /\
    count_fetches (fst (request self fetch endpoint body)) = 1.
Proof.
  unfold request, request_try.
  destruct (fetch _) as [response|f]; cbn beta iota.
  - match goal with
    | |- context [match ?c with Done _ => _ | Raise _ => _ end] => destruct c
    end; cbn [fst app].
    + exists []. split; reflexivity.
    + exists [EvClearTimeout]. split; reflexivity.
  - cbn [fst app]. exists []. split; reflexivity.
Qed.

(** X11.  [request] succeeds exactly when [fetch] resolves to a response
    whose status is in 200 to 299 and whose body reads as JSON; the
    result is then that body, as it is. *)
Theorem request_succeeds_iff {T : Type}
    (self : EmotionAnalyzer) (fetch : Fetch T) (endpoint : jsstring)
    (body : Payload) (v : T) :
  snd (request self fetch endpoint body) = Done v <->
  exists response,
    fetch (init_of self endpoint body) = Fulfilled response /\
    (200 <= status response <= 299)%Z /\
    json response = Fulfilled v.
Proof.
  rewrite request_outcome. split.
  - destruct (fetch _) as [response|f]; [|discriminate].
    destruct (ok response) eqn:Hok.
    + destruct (json response) as [w|f] eqn:Hj; [|discriminate].
      intros H. inversion H; subst. exists response.
      split; [reflexivity|]. split; [now apply ok_iff_2xx | exact Hj].
    + destruct (status response =? 429)%Z; [discriminate|].
      destruct (Error_message _); discriminate.
  - intros [response [-> [Hst Hj]]].
    apply ok_iff_2xx in Hst. now rewrite Hst, Hj.
Qed.

(** X12.  Where the errors of [request] come from.  A [RateLimitError]
    comes from a response with status 429; an [ApiError] comes from a
    response whose status it carries, which is neither in 200 to 299 nor
    429, it always carries the body text, and its message is the string
    conversion of the message chosen from the body; a [TimeoutError]
    carries the stored timeout and comes from an error named AbortError;
    a [NetworkError] comes from a value the transport threw, or from an
    error response (neither 2xx nor 429) whose chosen message has no
    string conversion, the TypeError of the conversion being its cause;
    and [request] never fails with a [ValidationError]. *)
Theorem request_error_origin {T : Type}
    (self : EmotionAnalyzer) (fetch : Fetch T) (endpoint : jsstring)
    (body : Payload) :
  (forall m ra,
     snd (request self fetch endpoint body) = throw (RateLimitError m ra) ->
     exists response,
       fetch (init_of self endpoint body) = Fulfilled response /\
       status response = 429%Z) /\
  (forall m sc b,
     snd (request self fetch endpoint body) = throw (ApiError m sc b) ->
     exists response,
       fetch (init_of self endpoint body) = Fulfilled response /\
       status response = sc /\
       ~ (200 <= sc <= 299)%Z /\ sc <> 429%Z /\
       b = Some (responseText_of response) /\
       Error_message (errorMessage_of sc (responseText_of response))
       = Some m) /\
  (forall m ms,
     snd (request self fetch endpoint body) = throw (TimeoutError m ms) ->
     ms = timeout self /\
     exists e,
       transport_threw fetch (init_of self endpoint body) (FError e) /\
       err_name e = lit "AbortError") /\
  (forall m c,
     snd (request self fetch endpoint body) = throw (NetworkError m c) ->
     (exists f,
        transport_threw fetch (init_of self endpoint body) f /\
        is_abort (ThrowForeign f) = false /\
        c = cause_of (ThrowForeign f)) \/
     (exists response,
        fetch (init_of self endpoint body) = Fulfilled response /\
        ~ (200 <= status response <= 299)%Z /\
        status response <> 429%Z /\
        Error_message (errorMessage_of (status response)
                         (responseText_of response)) = None /\
        c = Some TypeError_to_primitive)) /\
  (forall m f,
     snd (request self fetch endpoint body) <> throw (ValidationError m f)).
Proof.
  rewrite request_outcome. unfold transport_threw, throw.
  destruct (fetch _) as [response|f] eqn:Hfetch.
  - destruct (ok response) eqn:Hok.
    + destruct (json response) as [w|f] eqn:Hj.
      * repeat split; intros; discriminate.
      * destruct (request_catch_foreign self f)
          as [[e [-> [Hn ->]]]|[Hab [m0 ->]]].
        -- split; [intros; discriminate|]. split; [intros; discriminate|].
           split; [|split; intros; discriminate].
           intros m ms H. inversion H; subst. split; [reflexivity|].
           exists e. split; [right; eauto | exact Hn].
        -- split; [intros; discriminate|]. split; [intros; discriminate|].
           split; [intros; discriminate|]. split; [|intros; discriminate].
           intros m c H. inversion H; subst. left.
           exists f. split; [right; eauto|]. split; [exact Hab | reflexivity].
    + assert (Hnot : ~ (200 <= status response <= 299)%Z).
      { intros H2. apply ok_iff_2xx in H2. congruence. }
      destruct (Z.eqb_spec (status response) 429) as [Hst|Hst].
      * split; [|repeat split; intros; discriminate].
        intros m ra H. exists response. auto.
      * destruct (Error_message _) as [message|] eqn:Hmsg.
        -- split; [intros; discriminate|].
           split; [|repeat split; intros; discriminate].
           intros m sc b H. inversion H; subst. exists response.
           repeat split; auto.
        -- split; [intros; discriminate|]. split; [intros; discriminate|].
           split; [intros; discriminate|]. split; [|intros; discriminate].
           intros m c H. inversion H; subst. right.
           exists response. repeat split; auto.
  - destruct (request_catch_foreign self f)
      as [[e [-> [Hn ->]]]|[Hab [m0 ->]]].
    + split; [intros; discriminate|]. split; [intros; discriminate|].
      split; [|split; intros; discriminate].
      intros m ms H. inversion H; subst. split; [reflexivity|].
      exists e. split; [left; reflexivity | exact Hn].
    + split; [intros; discriminate|]. split; [intros; discriminate|].
      split; [intros; discriminate|]. split; [|intros; discriminate].
      intros m c H. inversion H; subst. left.
      exists f. split; [left; reflexivity|]. split; [exact Hab | reflexivity].
Qed.

(** X11 at a response 200 that carries the example result. *)
Lemma request_succeeds_iff_witness :
  snd (request (constructor (mkOptions None None))
         (succeeding_fetch joy_response)
         (lit "/api/v1/analyze") (TextPayload (lit "hi")))
  = Done joy_response.
Proof.
  apply (proj2 (request_succeeds_iff (constructor (mkOptions None None))
                  (succeeding_fetch joy_response)
                  (lit "/api/v1/analyze") (TextPayload (lit "hi"))
                  joy_response)).
  eexists. split; [reflexivity|]. split; [simpl; lia | reflexivity].
Defined.

(** X12 at a response 503 with an HTML body. *)
Lemma request_error_origin_witness :
  exists response,
    answering_fetch ApiAnalyzeResponse.t 503 None (lit "<html>busy</html>")
      (init_of (constructor (mkOptions None None)) (lit "/api/v1/analyze")
         (TextPayload (lit "hi")))
    = Fulfilled response /\
    status response = 503%Z /\
    ~ (200 <= 503 <= 299)%Z /\ 503%Z <> 429%Z /\
    Some (lit "<html>busy</html>") = Some (responseText_of response) /\
    Error_message (errorMessage_of 503 (responseText_of response))
    = Some (lit "API request failed with status 503").
Proof.
  exact (proj1 (proj2 (request_error_origin
                         (constructor (mkOptions None None))
                         (answering_fetch ApiAnalyzeResponse.t 503 None
                            (lit "<html>busy</html>"))
                         (lit "/api/v1/analyze") (TextPayload (lit "hi"))))
           (lit "API request failed with status 503") 503%Z
           (Some (lit "<html>busy</html>")) eq_refl).
Defined.

(** X13.  What the caller is told when the transport throws, be it
    [fetch] that rejects or the body of a 2xx response that does not read
    as JSON.  An error named AbortError gives a [TimeoutError] whose
    message names the stored timeout, printed as a template literal
    prints a number, even when it is a [TypeError]; any
    other [TypeError] gives the fixed message about the connection;
    any other [Error] gives its own message; a thrown value that is not
    an [Error] gives the message of an unexpected error and no cause. *)
Theorem request_transport_failure_messages {T : Type}
    (self : EmotionAnalyzer) (fetch : Fetch T) (endpoint : jsstring)
    (body : Payload) (f : Foreign) :
  transport_threw fetch (init_of self endpoint body) f ->
  (forall e, f = FError e -> err_name e = lit "AbortError" ->
     snd (request self fetch endpoint body)
     = throw (TimeoutError
                (lit "Request timed out after " ++ Number_toString (of_Z (timeout self))
                 ++ lit "ms")
                (timeout self))) /\
  (forall e, f = FError e -> err_name e <> lit "AbortError" ->
     err_isTypeError e = true ->
     snd (request self fetch endpoint body)
     = throw (NetworkError
                (lit "Failed to connect to the API. Please check your network connection.")
                (Some e))) /\
  (forall e, f = FError e -> err_name e <> lit "AbortError" ->
     err_isTypeError e = false ->
     snd (request self fetch endpoint body)
     = throw (NetworkError (err_message e) (Some e))) /\
  (forall v, f = FValue v ->
     snd (request self fetch endpoint body)
     = throw (NetworkError (lit "An unexpected error occurred") None)).
Proof.
  intros Hthrew.
  assert (Hout : snd (request self fetch endpoint body)
                 = throw (request_catch self (ThrowForeign f))).
  { rewrite request_outcome.
    destruct Hthrew as [->|[response [-> [-> ->]]]]; reflexivity. }
  rewrite Hout. clear Hout Hthrew.
  assert (Hneq : forall e, err_name e <> lit "AbortError" ->
                   jsstring_eqb (err_name e) (lit "AbortError") = false).
  { intros e Hn. destruct (jsstring_eqb _ _) eqn:E; [|reflexivity].
    apply jsstring_eqb_eq in E. contradiction. }
  split; [|split; [|split]].
  - intros e -> Hn. cbn [request_catch].
    rewrite (proj2 (jsstring_eqb_eq _ _) Hn). reflexivity.
  - intros e -> Hn Ht. cbn [request_catch]. now rewrite (Hneq e Hn), Ht.
  - intros e -> Hn Ht. cbn [request_catch]. now rewrite (Hneq e Hn), Ht.
  - intros v ->. reflexivity.
Qed.

(** X13 at a client whose timeout is 1e21 milliseconds and a transport
    that aborts: the message prints the timeout as the template literal
    does, in exponent form. *)
Lemma request_transport_failure_messages_witness :
  snd (request (constructor (mkOptions None (Some (10 ^ 21)%Z)))
         (aborting_fetch ApiAnalyzeResponse.t)
         (lit "/api/v1/analyze") (TextPayload (lit "hi")))
  = throw (TimeoutError (lit "Request timed out after 1e+21ms") (10 ^ 21)%Z).
Proof.
  refine (eq_trans
            (proj1 (request_transport_failure_messages
                      (constructor (mkOptions None (Some (10 ^ 21)%Z)))
                      (aborting_fetch ApiAnalyzeResponse.t)
                      (lit "/api/v1/analyze") (TextPayload (lit "hi"))
                      (FError (mkJsError (lit "AbortError")
                                 (lit "This operation was aborted") false))
                      _)
               _ eq_refl eq_refl)
            _).
  - left. reflexivity.
  - vm_compute. reflexivity.
Defined.

(** X15.  An error response whose body is not a JSON object gets the
    generic message: a body that does not read as JSON (an HTML page, the
    empty string) and a body that reads as [null], an array, a string, a
    number or a boolean have none of the three properties. *)
Theorem request_api_error_generic_message {T : Type}
    (self : EmotionAnalyzer) (fetch : Fetch T) (endpoint : jsstring)
    (body : Payload) (response : Response T) :
  fetch (init_of self endpoint body) = Fulfilled response ->
  ok response = false ->
  status response <> 429%Z ->
  (JSON_parse (responseText_of response) = None \/
   exists v, JSON_parse (responseText_of response) = Some v /\
             forall props, v <> VObject props) ->
  snd (request self fetch endpoint body)
  = throw (ApiError
             (lit "API request failed with status "
              ++ Number_toString (of_Z (status response)))
             (status response) (Some (responseText_of response))).
Proof.
  intros Hfetch Hok Hst Hbody.
  rewrite request_outcome, Hfetch, Hok.
  destruct (Z.eqb_spec (status response) 429) as [E|_]; [contradiction|].
  assert (Hmsg : errorMessage_of (status response) (responseText_of response)
                 = default_errorMessage (status response)).
  { rewrite errorMessage_of_first_truthy.
    destruct Hbody as [->|[v [-> Hv]]]; [reflexivity|].
    destruct v; try reflexivity. exfalso. eapply Hv. reflexivity. }
  rewrite Hmsg. reflexivity.
Qed.

(** X15 at status 502 with the body [null]. *)
Lemma request_api_error_generic_message_witness :
  snd (request (constructor (mkOptions None None))
         (answering_fetch ApiAnalyzeResponse.t 502 None (lit "null"))
         (lit "/api/v1/analyze") (TextPayload (lit "hi")))
  = throw (ApiError (lit "API request failed with status 502") 502
             (Some (lit "null"))).
Proof.
  apply (request_api_error_generic_message
           (constructor (mkOptions None None))
           (answering_fetch ApiAnalyzeResponse.t 502 None (lit "null"))
           (lit "/api/v1/analyze") (TextPayload (lit "hi")) _ eq_refl eq_refl).
  - discriminate.
  - right. exists VNull. split; [reflexivity | discriminate].
Defined.

(** X16.  An error response whose body cannot be read is reported as if
    the body were empty: the [ApiError] carries the status, the generic
    message and the empty string as its body. *)
Theorem request_api_error_unreadable_body {T : Type}
    (self : EmotionAnalyzer) (fetch : Fetch T) (endpoint : jsstring)
    (body : Payload) (response : Response T) (f : Foreign) :
  fetch (init_of self endpoint body) = Fulfilled response ->
  ok response = false ->
  status response <> 429%Z ->
  text response = Rejected f ->
  snd (request self fetch endpoint body)
  = throw (ApiError
             (lit "API request failed with status "
              ++ Number_toString (of_Z (status response)))
             (status response) (Some [])).
Proof.
  intros Hfetch Hok Hst Htext.
  rewrite request_outcome, Hfetch, Hok.
  destruct (Z.eqb_spec (status response) 429) as [E|_]; [contradiction|].
  unfold responseText_of. rewrite Htext. reflexivity.
Qed.

(** X16 at status 500. *)
Lemma request_api_error_unreadable_body_witness :
  snd (request (constructor (mkOptions None None))
         (unreadable_fetch ApiAnalyzeResponse.t 500)
         (lit "/api/v1/analyze") (TextPayload (lit "hi")))
  = throw (ApiError (lit "API request failed with status 500") 500
             (Some [])).
Proof.
  apply (request_api_error_unreadable_body
           (constructor (mkOptions None None))
           (unreadable_fetch ApiAnalyzeResponse.t 500)
           (lit "/api/v1/analyze") (TextPayload (lit "hi")) _
           (FError (mkJsError (lit "TypeError")
                      (lit "body stream already read") true))
           eq_refl eq_refl).
  - discriminate.
  - reflexivity.
Defined.

(** X17.  A response with status 429 fails with a [RateLimitError] with
    the fixed message, whatever its body holds.  Its [retryAfter] is
    absent exactly when the Retry-After header is missing or empty, and
    it is [n] when the header is the decimal numeral of an [n] up to
    2^53, the integers that [parseInt] returns without rounding. *)
Theorem request_rate_limit_retryAfter {T : Type}
    (self : EmotionAnalyzer) (fetch : Fetch T) (endpoint : jsstring)
    (body : Payload) (response : Response T) :
  fetch (init_of self endpoint body) = Fulfilled response ->
  status response = 429%Z ->
  exists ra,
    snd (request self fetch endpoint body)
    = throw (RateLimitError
               (lit "Rate limit exceeded. Please wait before making more requests.")
               ra) /\
    (ra = None <->
     headers_get response (lit "Retry-After") = None \/
     headers_get response (lit "Retry-After") = Some []) /\
    (forall n, (N.of_nat n <= 2 ^ 53)%N ->
       headers_get response (lit "Retry-After") = Some (show_nat n) ->
       ra = Some (Dec false (N.of_nat n) 0)).
Proof.
  intros Hfetch Hst.
  exists (retryAfter_of (headers_get response (lit "Retry-After"))).
  split; [now apply request_rate_limited|].
  split; [apply retryAfter_of_absent|].
  intros n Hn ->. now apply retryAfter_of_numeral.
Qed.

(** X17 at a response 429 with the header Retry-After: 120 and a body
    that has a detail. *)
Lemma request_rate_limit_retryAfter_witness :
  snd (request (constructor (mkOptions None None))
         (answering_fetch ApiAnalyzeResponse.t 429 (Some (lit "120"))
            (json_lit "{'detail':'slow down'}"))
         (lit "/api/v1/analyze") (TextPayload (lit "hi")))
  = throw (RateLimitError
             (lit "Rate limit exceeded. Please wait before making more requests.")
             (Some (Dec false 120 0))).
Proof.
  destruct (request_rate_limit_retryAfter
              (constructor (mkOptions None None))
              (answering_fetch ApiAnalyzeResponse.t 429 (Some (lit "120"))
                 (json_lit "{'detail':'slow down'}"))
              (lit "/api/v1/analyze") (TextPayload (lit "hi")) _
              eq_refl eq_refl)
    as [ra [Hreq [_ Hnum]]].
  rewrite Hreq. rewrite (Hnum 120); [reflexivity | discriminate | reflexivity].
Defined.

(** X25.  The message of an [ApiError] is a string, whatever the body
    holds.  Take an error response (neither 2xx nor 429) whose body
    parses as JSON.  The value chosen for the message is the first truthy
    one of detail, message and error, else the generic message, and the
    error stores its conversion to a string: the request fails with an
    [ApiError] with that string as its message, the status and the body
    text.  So a detail that is an empty array gives the empty message,
    and a detail that is an object without a property toString gives the
    message [object Object].  When the chosen value has no conversion, as
    a detail that is an object with a property toString, the TypeError of
    the conversion is caught and the request fails with a
    [NetworkError] instead. *)
Theorem request_api_error_message_conversion {T : Type}
    (self : EmotionAnalyzer) (fetch : Fetch T) (endpoint : jsstring)
    (body : Payload) (response : Response T) (v : JsValue) :
  fetch (init_of self endpoint body) = Fulfilled response ->
  ok response = false ->
  status response <> 429%Z ->
  JSON_parse (responseText_of response) = Some v ->
  (forall m,
     Error_message
       (first_truthy [field v (lit "detail"); field v (lit "message");
                      field v (lit "error")]
                     (default_errorMessage (status response))) = Some m ->
     snd (request self fetch endpoint body)
     = throw (ApiError m (status response)
                (Some (responseText_of response)))) /\
  (Error_message
     (first_truthy [field v (lit "detail"); field v (lit "message");
                    field v (lit "error")]
                   (default_errorMessage (status response))) = None ->
   snd (request self fetch endpoint body)
   = throw (NetworkError
              (lit "Failed to connect to the API. Please check your network connection.")
              (Some TypeError_to_primitive))) /\
  (field v (lit "detail") = VArray [] ->
   snd (request self fetch endpoint body)
   = throw (ApiError [] (status response)
              (Some (responseText_of response)))) /\
  (forall props,
     field v (lit "detail") = VObject props ->
     get_prop props (lit "toString") = None ->
     snd (request self fetch endpoint body)
     = throw (ApiError (lit "[object Object]") (status response)
                (Some (responseText_of response)))) /\
  (forall props x,
     field v (lit "detail") = VObject props ->
     get_prop props (lit "toString") = Some x ->
     snd (request self fetch endpoint body)
     = throw (NetworkError
                (lit "Failed to connect to the API. Please check your network connection.")
                (Some TypeError_to_primitive))).
Proof.
  intros Hfetch Hok Hst Hparse.
  rewrite (request_error_response self fetch endpoint body response
             Hfetch Hok Hst).
  rewrite errorMessage_of_first_truthy, Hparse.
  split; [|split; [|split; [|split]]].
  - intros m ->. reflexivity.
  - intros ->. reflexivity.
  - intros Hd. cbn [first_truthy]. rewrite Hd. reflexivity.
  - intros props Hd Hp. cbn [first_truthy]. rewrite Hd.
    cbn [ToBoolean Error_message ToString]. rewrite Hp. reflexivity.
  - intros props x Hd Hp. cbn [first_truthy]. rewrite Hd.
    cbn [ToBoolean Error_message ToString]. rewrite Hp. reflexivity.
Qed.

(** X25 at status 422 with a body whose detail is an array of two
    objects: the message is [object Object],[object Object]. *)
Lemma request_api_error_message_conversion_witness :
  snd (request (constructor (mkOptions None None))
         (answering_fetch ApiAnalyzeResponse.t 422 None
            (json_lit "{'detail':[{'msg':'field required'},{'msg':'too long'}]}"))
         (lit "/api/v1/analyze") (TextPayload (lit "hi")))
  = throw (ApiError (lit "[object Object],[object Object]") 422
             (Some (json_lit "{'detail':[{'msg':'field required'},{'msg':'too long'}]}"))).
Proof.
  apply (proj1 (request_api_error_message_conversion
                  (constructor (mkOptions None None))
                  (answering_fetch ApiAnalyzeResponse.t 422 None
                     (json_lit "{'detail':[{'msg':'field required'},{'msg':'too long'}]}"))
                  (lit "/api/v1/analyze") (TextPayload (lit "hi")) _
                  (VObject
                     [(lit "detail",
                       VArray [VObject [(lit "msg", VString (lit "field required"))];
                               VObject [(lit "msg", VString (lit "too long"))]])])
                  eq_refl eq_refl ltac:(discriminate) eq_refl)).
  reflexivity.
Defined.

(** X26.  For a status of at most three digits, as every HTTP status is,
    the generic message ends with the decimal numeral of the status. *)
Theorem generic_message_status_numeral (st : Z) :
  (0 <= st <= 999)%Z ->
  default_errorMessage st
  = VString (lit "API request failed with status "
             ++ show_nat (Z.to_nat st)).
Proof.
  intros Hst. unfold default_errorMessage. do 2 f_equal.
  assert (Hall : numerals_agree 1000 = true) by (vm_compute; reflexivity).
  unfold numerals_agree in Hall. rewrite forallb_forall in Hall.
  assert (Hin : In (Z.to_nat st) (seq 0 1000)) by (apply in_seq; lia).
  apply Hall in Hin. apply jsstring_eqb_eq in Hin.
  rewrite Z2Nat.id in Hin by lia. exact Hin.
Qed.

(** X26 at status 503. *)
Lemma generic_message_status_numeral_witness :
  default_errorMessage 503
  = VString (lit "API request failed with status 503").
Proof.
  apply (generic_message_status_numeral 503). lia.
Defined.

(* ================================================================== *)
(** * Further properties: the public methods                          *)
(* ================================================================== *)

Lemma validateText_total (text : JsValue) :
  validateText text = Done tt \/
  exists e, validateText text = throw e /\ field_of e = Some (lit "text").
Proof.
  rewrite validateText_cases.
  destruct text as [| |b|n|s|elems|slots|props];
    try (right; eexists; split; reflexivity).
  destruct s as [|c r]; [right; eexists; split; reflexivity|].
  destruct (length (trim (c :: r)) =? 0);
    [right; eexists; split; reflexivity|].
  destruct (100 <? word_count (c :: r));
    [right; eexists; split; reflexivity | left; reflexivity].
Qed.

(** The text that passed [validateText], trimmed, is within the limits. *)
Lemma validateText_pass_within_limits (s : jsstring) :
  validateText (VString s) = Done tt -> within_limits (trim s).
Proof.
  intros H. apply validateText_pass_iff in H.
  destruct H as [t [Ht [Hne Hw]]]. inversion Ht; subst t.
  unfold within_limits. rewrite trim_idempotent, word_count_trim. auto.
Qed.

Lemma forEach_from_Done (slots : list (option JsValue)) :
  forall index,
    forEach_from validateBatchElement slots index = Done tt ->
    Forall slot_valid slots.
Proof.
  induction slots as [|[x|] r IH]; intros index; simpl; [constructor| |].
  - destruct (validateBatchElement x index) as [[]|t] eqn:E; simpl;
      [|discriminate].
    intros H. constructor; [now apply (validateBatchElement_iff x index)|].
    now apply (IH (S index)).
  - intros H. constructor; [exact I | now apply (IH (S index))].
Qed.

Lemma forEach_from_valid (slots : list (option JsValue)) :
  Forall slot_valid slots ->
  forall index, forEach_from validateBatchElement slots index = Done tt.
Proof.
  induction 1 as [|[x|] r Hx _ IH]; intros index; simpl; [reflexivity| |].
  - rewrite (proj2 (validateBatchElement_iff x index) Hx). simpl. apply IH.
  - apply IH.
Qed.

(** When [validateBatchTexts] passes. *)
Lemma validateBatchTexts_pass_iff (texts : JsValue) :
  validateBatchTexts texts = Done tt <->
  exists slots,
    array_slots texts = Some slots /\ 1 <= length slots <= 10 /\
    Forall slot_valid slots.
Proof.
  unfold validateBatchTexts, throw, MAX_BATCH_SIZE. split.
  - destruct (array_slots texts) as [slots|]; [|discriminate].
    destruct (Nat.eqb_spec (length slots) 0) as [|Hne]; [discriminate|].
    destruct (Nat.ltb_spec 10 (length slots)) as [|Hle]; [discriminate|].
    intros Hrun. exists slots. split; [reflexivity|]. split; [lia|].
    now apply forEach_from_Done in Hrun.
  - intros [slots [-> [Hlen Hall]]].
    rewrite (proj2 (Nat.eqb_neq (length slots) 0)) by lia.
    rewrite (proj2 (Nat.ltb_ge 10 (length slots))) by lia.
    now apply forEach_from_valid.
Qed.

(** The positions of a validated batch hold strings or are holes;
    trimmed, each string is within the limits. *)
Lemma validated_slots_are_strings (slots : list (option JsValue)) :
  Forall slot_valid slots ->
  exists strings,
    slots = List.map (option_map VString) strings /\
    Forall slot_within_limits (List.map (option_map trim) strings).
Proof.
  induction 1 as [|[w|] r Hw _ [strings [-> Hall]]].
  - exists []. split; [reflexivity | constructor].
  - destruct (validateText_string _ Hw) as [s ->].
    exists (Some s :: strings). split; [reflexivity|].
    simpl. constructor; [now apply validateText_pass_within_limits | exact Hall].
  - exists (None :: strings). split; [reflexivity|].
    simpl. constructor; [exact I | exact Hall].
Qed.

Lemma map_trim_strings (strings : list (option jsstring)) :
  map_trim (List.map (option_map VString) strings)
  = Done (List.map (option_map trim) strings).
Proof.
  induction strings as [|[s|] r IH]; simpl; [reflexivity| |]; now rewrite IH.
Qed.

(** A dense array has no hole. *)
Lemma dense_slots_strings (elems : list JsValue)
    (strings : list (option jsstring)) :
  List.map Some elems = List.map (option_map VString) strings ->
  exists present, strings = List.map Some present.
Proof.
  revert elems.
  induction strings as [|[s|] r IH]; intros [|x elems]; simpl;
    try discriminate.
  - intros _. exists []. reflexivity.
  - intros H. inversion H as [[Hx Hr]].
    destruct (IH _ Hr) as [present ->].
    exists (s :: present). reflexivity.
Qed.

Lemma slots_within_limits_dense (present : list jsstring) :
  Forall slot_within_limits (List.map Some present) ->
  Forall within_limits present.
Proof.
  induction present as [|t r IH]; simpl; intros H; [constructor|].
  inversion H; subst. constructor; [assumption | now apply IH].
Qed.

(** What [analyzeBatch] does with a batch that passed validation. *)
Lemma analyzeBatch_validated
    (self : EmotionAnalyzer) (fetch : Fetch ApiBatchResponse.t)
    (texts : JsValue) :
  validateBatchTexts texts = Done tt ->
  exists strings,
    array_slots texts = Some (List.map (option_map VString) strings) /\
    1 <= length strings <= 10 /\
    Forall slot_within_limits (List.map (option_map trim) strings) /\
    fst (analyzeBatch self fetch texts)
    = fst (request self fetch (lit "/api/v1/analyze/batch")
             (TextsPayload (List.map (option_map trim) strings))).
Proof.
  intros Hv.
  destruct (proj1 (validateBatchTexts_pass_iff texts) Hv)
    as [slots [Hslots [Hlen Hall]]].
  destruct (validated_slots_are_strings slots Hall) as [strings [-> Hlim]].
  exists strings. split; [exact Hslots|].
  split; [now rewrite length_map in Hlen|]. split; [exact Hlim|].
  unfold analyzeBatch, and_then. rewrite Hv.
  unfold Array_map_trim. rewrite Hslots, map_trim_strings.
  destruct (request self fetch _ _) as [events [w|t]]; reflexivity.
Qed.

Lemma count_fetches_request {T : Type} (self : EmotionAnalyzer)
    (fetch : Fetch T) (endpoint : jsstring) (body : Payload) :
  count_fetches (fst (request self fetch endpoint body)) = 1.
Proof.
  destruct (request_trace self fetch endpoint body) as [rest [-> [_ Hrest]]].
  simpl. f_equal.
  induction rest as [|ev r IH]; [reflexivity|].
  rewrite (Hrest ev) by (left; reflexivity). simpl.
  apply IH. intros ev' Hin. apply Hrest. now right.
Qed.

(** The one request that [request] hands to [fetch]. *)
Lemma request_fetches {T : Type} (self : EmotionAnalyzer) (fetch : Fetch T)
    (endpoint : jsstring) (body : Payload) (r : Request) :
  In (EvFetch r) (fst (request self fetch endpoint body)) <->
  r = init_of self endpoint body.
Proof.
  split.
  - intros Hin.
    destruct (request_events self fetch endpoint body (EvFetch r) Hin)
      as [H|[H|H]]; try discriminate.
    now inversion H.
  - intros ->.
    destruct (request_trace self fetch endpoint body) as [rest [-> _]].
    right. left. reflexivity.
Qed.

(** X18.  [analyze] reaches the network exactly when the text passes
    validation: a text that fails validation makes the call fail with
    the error of [validateText] and no request at all, and a text that
    passes makes exactly one call of [fetch]. *)
Theorem analyze_fetches_iff_valid
    (self : EmotionAnalyzer) (fetch : Fetch ApiAnalyzeResponse.t)
    (text : JsValue) :
  (validateText text = Done tt ->
   count_fetches (fst (analyze self fetch text)) = 1) /\
  (validateText text <> Done tt ->
   exists e,
     validateText text = throw e /\ field_of e = Some (lit "text") /\
     analyze self fetch text = ([], throw e)).
Proof.
  split.
  - intros Hv. destruct (validateText_string _ Hv) as [s ->].
    unfold analyze, and_then. rewrite Hv. cbn [String_trim].
    pose proof (count_fetches_request self fetch (lit "/api/v1/analyze")
                  (TextPayload (trim s))) as Hc.
    destruct (request self fetch _ _) as [events completion]. exact Hc.
  - intros Hv. destruct (validateText_total text) as [H|[e [He Hf]]];
      [contradiction|].
    exists e. split; [exact He|]. split; [exact Hf|].
    unfold analyze, and_then. rewrite He. reflexivity.
Qed.

(** X18 at the text [null]. *)
Lemma analyze_fetches_iff_valid_witness :
  exists e,
    validateText VNull = throw e /\ field_of e = Some (lit "text") /\
    analyze (constructor (mkOptions None None))
      (succeeding_fetch joy_response) VNull
    = ([], throw e).
Proof.
  apply (proj2 (analyze_fetches_iff_valid (constructor (mkOptions None None))
                  (succeeding_fetch joy_response) VNull)).
  discriminate.
Defined.

(** X19.  For a batch that passes validation, every position of the
    array holds a string or is a hole, which [forEach] skips, and
    [analyzeBatch] makes exactly one request: a POST to the batch endpoint
    under the base URL whose payload has as many positions as the batch
    and in its order, the trimmed text where the batch holds a text and a
    hole where it has a hole ([JSON.stringify] writes a hole as null). *)
Theorem analyzeBatch_sends_trimmed_texts
    (self : EmotionAnalyzer) (fetch : Fetch ApiBatchResponse.t)
    (texts : JsValue) :
  validateBatchTexts texts = Done tt ->
  exists strings,
    array_slots texts = Some (List.map (option_map VString) strings) /\
    count_fetches (fst (analyzeBatch self fetch texts)) = 1 /\
    forall r,
      In (EvFetch r) (fst (analyzeBatch self fetch texts)) <->
      r = mkRequest (baseUrl self ++ lit "/api/v1/analyze/batch") (lit "POST")
            [(lit "Content-Type", lit "application/json")]
            (TextsPayload (List.map (option_map trim) strings)).
Proof.
  intros Hv.
  destruct (analyzeBatch_validated self fetch texts Hv)
    as [strings [Hslots [_ [_ Hfst]]]].
  exists strings. split; [exact Hslots|]. rewrite Hfst. clear Hfst.
  pose proof (count_fetches_request self fetch (lit "/api/v1/analyze/batch")
                (TextsPayload (List.map (option_map trim) strings))) as Hc.
  destruct (request_trace self fetch (lit "/api/v1/analyze/batch")
              (TextsPayload (List.map (option_map trim) strings)))
    as [rest [Htrace [_ Hrest]]].
  destruct (request self fetch _ _) as [events completion].
  cbn [fst] in *. split; [exact Hc|].
  subst events. intros r. split.
  - intros H. simpl in H.
    destruct H as [H|[H|H]]; [discriminate | now inversion H |].
    apply Hrest in H. discriminate.
  - intros ->. right. left. reflexivity.
Qed.

(** X19 at a batch of three positions, the second a hole, with white
    space around the two texts. *)
Lemma analyzeBatch_sends_trimmed_texts_witness :
  exists strings,
    array_slots
      (VSparse [Some (VString (lit " so happy ")); None;
                Some (VString (lit "fine  "))])
    = Some (List.map (option_map VString) strings) /\
    count_fetches
      (fst (analyzeBatch (constructor (mkOptions None None))
              (succeeding_fetch two_results)
              (VSparse [Some (VString (lit " so happy ")); None;
                        Some (VString (lit "fine  "))])))
    = 1 /\
    forall r,
      In (EvFetch r)
         (fst (analyzeBatch (constructor (mkOptions None None))
                 (succeeding_fetch two_results)
                 (VSparse [Some (VString (lit " so happy ")); None;
                           Some (VString (lit "fine  "))])))
      <->
      r = mkRequest
            (baseUrl (constructor (mkOptions None None))
             ++ lit "/api/v1/analyze/batch")
            (lit "POST") [(lit "Content-Type", lit "application/json")]
            (TextsPayload (List.map (option_map trim) strings)).
Proof.
  exact (analyzeBatch_sends_trimmed_texts
           (constructor (mkOptions None None)) (succeeding_fetch two_results)
           (VSparse [Some (VString (lit " so happy ")); None;
                     Some (VString (lit "fine  "))])
           eq_refl).
Defined.

Lemma validateBatchTexts_total (texts : JsValue) :
  validateBatchTexts texts = Done tt \/
  exists e, validateBatchTexts texts = throw e /\
            field_of e = Some (lit "texts").
Proof.
  destruct (validateBatchTexts texts) as [[]|t] eqn:E; [left; reflexivity|].
  right. destruct (validateBatchTexts_raises _ _ E) as [m ->].
  eexists. split; reflexivity.
Qed.

(** X20.  [analyzeBatch] reaches the network exactly when the batch
    passes validation: a batch that fails validation makes the call fail
    with the error of [validateBatchTexts] and no request at all, and a
    batch that passes makes exactly one call of [fetch]. *)
Theorem analyzeBatch_fetches_iff_valid
    (self : EmotionAnalyzer) (fetch : Fetch ApiBatchResponse.t)
    (texts : JsValue) :
  (validateBatchTexts texts = Done tt ->
   count_fetches (fst (analyzeBatch self fetch texts)) = 1) /\
  (validateBatchTexts texts <> Done tt ->
   exists e,
     validateBatchTexts texts = throw e /\ field_of e = Some (lit "texts") /\
     analyzeBatch self fetch texts = ([], throw e)).
Proof.
  split.
  - intros Hv.
    destruct (analyzeBatch_validated self fetch texts Hv)
      as [strings [_ [_ [_ ->]]]].
    apply count_fetches_request.
  - intros Hv. destruct (validateBatchTexts_total texts) as [H|[e [He Hf]]];
      [contradiction|].
    exists e. split; [exact He|]. split; [exact Hf|].
    unfold analyzeBatch, and_then. rewrite He. reflexivity.
Qed.

(** X20 at a batch whose second element is a number. *)
Lemma analyzeBatch_fetches_iff_valid_witness :
  exists e,
    validateBatchTexts (VArray [VString (lit "ok"); VNumber (Dec false 7 0)])
    = throw e /\
    field_of e = Some (lit "texts") /\
    analyzeBatch (constructor (mkOptions None None))
      (succeeding_fetch two_results)
      (VArray [VString (lit "ok"); VNumber (Dec false 7 0)])
    = ([], throw e).
Proof.
  apply (proj2 (analyzeBatch_fetches_iff_valid
                  (constructor (mkOptions None None))
                  (succeeding_fetch two_results)
                  (VArray [VString (lit "ok"); VNumber (Dec false 7 0)]))).
  discriminate.
Defined.

(** X21.  Whatever its argument, [analyze] sends only texts within the
    limits of the client: the text of every request it makes is not
    empty, has no white space at either end and has at most 100 words. *)
Theorem analyze_sends_only_texts_within_limits
    (self : EmotionAnalyzer) (fetch : Fetch ApiAnalyzeResponse.t)
    (text : JsValue) (r : Request) :
  In (EvFetch r) (fst (analyze self fetch text)) ->
  exists t, req_body r = TextPayload t /\ within_limits t.
Proof.
  unfold analyze, and_then.
  destruct (validateText text) as [[]|t0] eqn:Hv; [|intros []].
  destruct (validateText_string _ Hv) as [s ->]. cbn [String_trim].
  pose proof (request_events self fetch (lit "/api/v1/analyze")
                (TextPayload (trim s)) (EvFetch r)) as Hev.
  destruct (request self fetch _ _) as [events completion]. cbn [fst] in *.
  intros Hin. destruct (Hev Hin) as [H|[H|H]]; try discriminate.
  inversion H; subst. exists (trim s). split; [reflexivity|].
  now apply validateText_pass_within_limits.
Qed.

(** X21 at a text with white space around it: the request carries the
    trimmed text. *)
Lemma analyze_sends_only_texts_within_limits_witness :
  exists t,
    req_body (init_of (constructor (mkOptions None None))
                (lit "/api/v1/analyze") (TextPayload (lit "so happy")))
    = TextPayload t /\
    within_limits t.
Proof.
  apply (analyze_sends_only_texts_within_limits
           (constructor (mkOptions None None))
           (succeeding_fetch joy_response) (VString (lit "  so happy "))).
  right. left. reflexivity.
Defined.

(** X22.  Whatever its argument, [analyzeBatch] sends only batches within
    the limits of the client: every request it makes carries an array of
    between 1 and 10 positions, each of them a hole or a text that is not
    empty, with no white space at either end and of at most 100 words.
    A hole is sent only where the batch has one: for an array without
    holes every position is such a text. *)
Theorem analyzeBatch_sends_only_batches_within_limits
    (self : EmotionAnalyzer) (fetch : Fetch ApiBatchResponse.t)
    (texts : JsValue) (r : Request) :
  In (EvFetch r) (fst (analyzeBatch self fetch texts)) ->
  exists ts,
    req_body r = TextsPayload ts /\
    1 <= length ts <= 10 /\
    Forall slot_within_limits ts /\
    (forall elems, texts = VArray elems ->
       exists present,
         ts = List.map Some present /\ Forall within_limits present).
Proof.
  destruct (validateBatchTexts texts) as [[]|t0] eqn:Hv.
  - destruct (analyzeBatch_validated self fetch texts Hv)
      as [strings [Hslots [Hlen [Hlim ->]]]].
    intros Hin.
    destruct (request_events self fetch (lit "/api/v1/analyze/batch")
                (TextsPayload (List.map (option_map trim) strings))
                (EvFetch r) Hin) as [H|[H|H]]; try discriminate.
    inversion H; subst. exists (List.map (option_map trim) strings).
    split; [reflexivity|]. split; [now rewrite length_map|].
    split; [exact Hlim|].
    intros elems ->. cbn [array_slots] in Hslots.
    inversion Hslots as [Hmap].
    destruct (dense_slots_strings _ _ Hmap) as [present ->].
    exists (List.map trim present). split.
    + rewrite !map_map. reflexivity.
    + apply slots_within_limits_dense.
      rewrite !map_map in Hlim. rewrite map_map. exact Hlim.
  - unfold analyzeBatch, and_then. rewrite Hv. intros [].
Qed.

(** X22 at a batch of two texts. *)
Lemma analyzeBatch_sends_only_batches_within_limits_witness :
  exists ts,
    req_body (init_of (constructor (mkOptions None None))
                (lit "/api/v1/analyze/batch")
                (TextsPayload [Some (lit "so happy"); Some (lit "fine")]))
    = TextsPayload ts /\
    1 <= length ts <= 10 /\
    Forall slot_within_limits ts /\
    (forall elems,
       VArray [VString (lit " so happy "); VString (lit "fine  ")]
       = VArray elems ->
       exists present,
         ts = List.map Some present /\ Forall within_limits present).
Proof.
  apply (analyzeBatch_sends_only_batches_within_limits
           (constructor (mkOptions None None))
           (succeeding_fetch two_results)
           (VArray [VString (lit " so happy "); VString (lit "fine  ")])).
  right. left. reflexivity.
Defined.

(** X27.  Holes escape validation.  An array of 1 to 10 positions that
    are all holes, as [new Array(n)] makes, passes [validateBatchTexts],
    since [forEach] visits none of its positions, and [analyzeBatch]
    sends one request whose payload is an array of as many holes. *)
Theorem analyzeBatch_sends_holes
    (self : EmotionAnalyzer) (fetch : Fetch ApiBatchResponse.t) (n : nat) :
  1 <= n <= 10 ->
  validateBatchTexts (VSparse (repeat None n)) = Done tt /\
  count_fetches (fst (analyzeBatch self fetch (VSparse (repeat None n)))) = 1 /\
  forall r,
    In (EvFetch r) (fst (analyzeBatch self fetch (VSparse (repeat None n)))) <->
    r = mkRequest (baseUrl self ++ lit "/api/v1/analyze/batch") (lit "POST")
          [(lit "Content-Type", lit "application/json")]
          (TextsPayload (repeat None n)).
Proof.
  intros Hn.
  assert (Hv : validateBatchTexts (VSparse (repeat None n)) = Done tt).
  { apply validateBatchTexts_pass_iff. exists (repeat None n).
    split; [reflexivity|]. split; [now rewrite repeat_length|].
    apply Forall_forall. intros slot Hin.
    apply repeat_spec in Hin. subst slot. exact I. }
  split; [exact Hv|].
  destruct (analyzeBatch_validated self fetch _ Hv)
    as [strings [Hslots [_ [_ ->]]]].
  assert (Hstrings : List.map (option_map trim) strings = repeat None n).
  { cbn [array_slots] in Hslots. inversion Hslots as [Hmap]. clear - Hmap.
    revert strings Hmap.
    induction n as [|k IH]; intros [|[s|] strings]; simpl;
      try discriminate; [reflexivity|].
    intros H. inversion H as [Hr]. f_equal. now apply IH. }
  rewrite Hstrings.
  split; [apply count_fetches_request|].
  intros r. apply request_fetches.
Qed.

(** X27 at [new Array(3)]. *)
Lemma analyzeBatch_sends_holes_witness :
  validateBatchTexts (VSparse [None; None; None]) = Done tt /\
  count_fetches
    (fst (analyzeBatch (constructor (mkOptions None None))
            (succeeding_fetch two_results) (VSparse [None; None; None])))
  = 1 /\
  forall r,
    In (EvFetch r)
       (fst (analyzeBatch (constructor (mkOptions None None))
               (succeeding_fetch two_results) (VSparse [None; None; None])))
    <->
    r = mkRequest
          (baseUrl (constructor (mkOptions None None))
           ++ lit "/api/v1/analyze/batch")
          (lit "POST") [(lit "Content-Type", lit "application/json")]
          (TextsPayload [None; None; None]).
Proof.
  apply (analyzeBatch_sends_holes
           (constructor (mkOptions None None)) (succeeding_fetch two_results)
           3).
  lia.
Defined.

(* ================================================================== *)
(** * Further properties: the constructor                             *)
(* ================================================================== *)

Lemma replace_trailing_slash_app (s : jsstring) :
  replace_trailing_slash (s ++ [47%N]) = s.
Proof.
  unfold replace_trailing_slash. rewrite rev_app_distr. simpl.
  apply rev_involutive.
Qed.

(** X24.  One trailing slash makes no difference: a base URL that does
    not end with a slash, given with or without one slash after it, gives
    the same client, so the same request URLs. *)
Theorem constructor_ignores_one_trailing_slash
    (s : jsstring) (t : option Z) :
  s <> [] -> ends_with_slash s = false ->
  constructor (mkOptions (Some (s ++ [47%N])) t)
  = constructor (mkOptions (Some s) t) /\
  baseUrl (constructor (mkOptions (Some s) t)) = s.
Proof.
  intros Hs Hend. unfold constructor. cbn [opt_baseUrl opt_timeout].
  rewrite baseUrl_or_default_nonempty by (destruct s; discriminate).
  rewrite baseUrl_or_default_nonempty by exact Hs.
  rewrite replace_trailing_slash_app.
  destruct (replace_trailing_slash_cases s) as [[He _]|[_ ->]];
    [congruence|].
  split; reflexivity.
Qed.

(** X24 at a base URL of a local server. *)
Lemma constructor_ignores_one_trailing_slash_witness :
  constructor (mkOptions (Some (lit "http://localhost:8000" ++ [47%N])) None)
  = constructor (mkOptions (Some (lit "http://localhost:8000")) None) /\
  baseUrl (constructor (mkOptions (Some (lit "http://localhost:8000")) None))
  = lit "http://localhost:8000".
Proof.
  apply (constructor_ignores_one_trailing_slash
           (lit "http://localhost:8000") None).
  - discriminate.
  - reflexivity.
Defined.
